(** * The authentication handshake dispatcher

    A shallow embedding of [lib/cmd/handshake/authentication.js]: the
    [Authentication] command that classifies every inbound packet of the
    authentication phase ([handshakeResult]), switches the active
    authentication plugin on an AuthSwitchRequest
    ([dispatchAuthSwitchRequest], [pluginHandler]) and checks the
    fingerprint of a trusted self-signed certificate
    ([validateFingerPrint]).

    Bytes are integers ([Z], meant in 0..255), a [Buffer] is a list of
    bytes, JavaScript strings are [string]s.  The objects the command
    mutates ([this.plugin], [info.status]) live in an explicit state [St];
    the calls it makes on its collaborators are recorded, oldest first,
    in the trace of that state. *)

From Stdlib Require Import ZArith List String Ascii Bool Lia DecimalString.
Import ListNotations.
Local Open Scope Z_scope.

Definition Buffer := list Z.

(** ** JavaScript and Node helpers *)

(** Little-endian value of a run of bytes. *)
Fixpoint le_int (bs : Buffer) : Z :=
  match bs with
  | [] => 0
  | b :: r => b + 256 * le_int r
  end.

(** [String.prototype.toLowerCase] on one code unit below 256: the ASCII
    capitals and the Latin-1 capitals (all of 0xC0..0xDE but the
    multiplication sign 0xD7) move up by 0x20. *)
Definition lowerChar (c : ascii) : ascii :=
  let n := Z.of_nat (nat_of_ascii c) in
  if ((65 <=? n) && (n <=? 90)) || ((192 <=? n) && (n <=? 222) && negb (n =? 215))
  then ascii_of_nat (Z.to_nat (n + 32))
  else c.

Fixpoint toLowerCase (s : string) : string :=
  match s with
  | EmptyString => EmptyString
  | String c r => String (lowerChar c) (toLowerCase r)
  end.

(** Template-literal rendering of a number. *)
Definition numberToString (n : Z) : string :=
  NilZero.string_of_int (Z.to_int n).

(** [Array.prototype.toString]: the elements joined by commas. *)
Fixpoint arrayToString (l : list string) : string :=
  match l with
  | [] => EmptyString
  | [x] => x
  | x :: r => (x ++ "," ++ arrayToString r)%string
  end.

(** [Array.prototype.includes] on an array of strings. *)
Fixpoint includes (l : list string) (x : string) : bool :=
  match l with
  | [] => false
  | y :: r => String.eqb y x || includes r x
  end.

Definition hexValue (c : ascii) : option Z :=
  let n := Z.of_nat (nat_of_ascii c) in
  if (48 <=? n) && (n <=? 57) then Some (n - 48)
  else if (97 <=? n) && (n <=? 102) then Some (n - 87)
  else if (65 <=? n) && (n <=? 70) then Some (n - 55)
  else None.

(** [Buffer.from(s, 'hex')]: one byte per pair of hexadecimal digits; the
    decoding stops at the first pair that is not one. *)
Fixpoint Buffer_from_hex (s : string) : Buffer :=
  match s with
  | String a (String b r) =>
      match hexValue a, hexValue b with
      | Some x, Some y => (16 * x + y) :: Buffer_from_hex r
      | _, _ => []
      end
  | _ => []
  end.

Definition hexDigit (n : Z) : ascii :=
  if n <? 10 then ascii_of_nat (Z.to_nat (48 + n))
  else ascii_of_nat (Z.to_nat (87 + n)).

(** Modelled from the spec: [utils.toHexString] of [lib/misc/utils.js],
    which is not among the sources: "the hex encoding of the computed
    digest", two lower-case digits for every byte (the byte is masked with
    0xff first). *)
Fixpoint toHexString (bytes : Buffer) : string :=
  match bytes with
  | [] => EmptyString
  | b :: r =>
      let v := Z.land b 255 in
      String (hexDigit (v / 16)) (String (hexDigit (v mod 16)) (toHexString r))
  end.

(** ** The packet cursor *)

(** Modelled from the spec: the Packet Cursor of [lib/io/packet.js], which
    is not among the sources: a "sequential reader over one inbound
    protocol packet" with "peek-byte, skip-N, read-fixed-int,
    read-length-encoded-int, read-null-terminated-string,
    read-remaining-bytes, remaining-byte-count".  The cursor is the list of
    the bytes not read yet.  Integers are little-endian; a length-encoded
    integer is one byte below 0xFB, or 0xFC, 0xFD, 0xFE followed by 2, 3, 8
    bytes; 0xFB stands for NULL. *)
Module Packet.

Definition t := Buffer.

(** Modelled from the spec: [peek()], the next byte, [undefined] at the
    end of the packet. *)
Definition peek (p : t) : option Z := hd_error p.

(** Modelled from the spec: [skip(n)]. *)
Definition skip (n : nat) (p : t) : t := skipn n p.

(** Modelled from the spec: [remaining()], whether a byte is left. *)
Definition remaining (p : t) : bool :=
  match p with [] => false | _ :: _ => true end.

(** Modelled from the spec: [readUInt16()], the read-fixed-int on two bytes,
    [buf[pos++] | (buf[pos++] << 8)]; a byte past the end reads as
    [undefined], which the bit operations take for 0. *)
Definition readUInt16 (p : t) : Z * t :=
  (Z.lor (nth 0 p 0) (Z.shiftl (nth 1 p 0) 8), skipn 2 p).

(** Modelled from the spec: [skipLengthCodedNumber()], which steps over one
    length-encoded integer. *)
Definition skipLengthCodedNumber (p : t) : t :=
  match p with
  | [] => []
  | type :: r =>
      if type =? 252 then skipn 2 r
      else if type =? 253 then skipn 3 r
      else if type =? 254 then skipn 8 r
      else r
  end.

(** Modelled from the spec: the read-length-encoded-int that opens a
    length-encoded buffer; [None] is the NULL marker 0xFB (and 0xFF, which
    the encoding does not use). *)
Definition readUnsignedLength (p : t) : option Z * t :=
  match p with
  | [] => (None, [])
  | type :: r =>
      if type <? 251 then (Some type, r)
      else if type =? 252 then (Some (le_int (firstn 2 r)), skipn 2 r)
      else if type =? 253 then (Some (le_int (firstn 3 r)), skipn 3 r)
      else if type =? 254 then (Some (le_int (firstn 8 r)), skipn 8 r)
      else (None, r)
  end.

(** Number of bytes a read of [len] bytes takes from [p]. *)
Definition take (len : Z) (p : t) : nat :=
  Z.to_nat (Z.min len (Z.of_nat (List.length p))).

(** Modelled from the spec: [readBufferLengthEncoded()], a length-encoded
    byte buffer; [None] models the [null] returned for the NULL marker. *)
Definition readBufferLengthEncoded (p : t) : option Buffer * t :=
  match readUnsignedLength p with
  | (None, r) => (None, r)
  | (Some len, r) => (Some (firstn (take len r) r), skipn (take len r) r)
  end.

(** The bytes up to the next zero byte (or the end). *)
Fixpoint untilNull (p : t) : Buffer :=
  match p with
  | [] => []
  | b :: r => if b =? 0 then [] else b :: untilNull r
  end.

(** What is left once the string and its terminator are read. *)
Fixpoint afterNull (p : t) : t :=
  match p with
  | [] => []
  | b :: r => if b =? 0 then r else afterNull r
  end.

(** Modelled from the spec: the bytes that [readStringNullEnded(charset?)]
    reads, a null-terminated string; the caller decodes them. *)
Definition readBytesNullEnded (p : t) : Buffer * t :=
  (untilNull p, afterNull p).

(** Modelled from the spec: [readBufferRemaining()]. *)
Definition readBufferRemaining (p : t) : Buffer * t := (p, []).

(** The [n] little-endian bytes of a value. *)
Definition bytesLE (n : nat) (v : Z) : Buffer :=
  map (fun i => (v / 256 ^ Z.of_nat i) mod 256) (seq 0 n).

(** The length-encoded form of an integer, as the server writes it. *)
Definition encodeLength (v : Z) : Buffer :=
  if v <? 251 then [v]
  else if v <? 65536 then 252 :: bytesLE 2 v
  else if v <? 16777216 then 253 :: bytesLE 3 v
  else 254 :: bytesLE 8 v.

End Packet.

(** ** Data model *)

(** The encoding argument of [readStringNullEnded] and [toString]. *)
Inductive Encoding := DefaultEncoding | AsciiEncoding.

(** The classes an object in the plugin slot can have: the first plugin of
    the handshake, the six classes of the registry, and [BoxedObject], the
    object that [new Object(packSeq, ...)] yields, which has none of the
    plugin methods. *)
Inductive PluginClass :=
| Handshake
| NativePasswordAuth
| ClearPasswordAuth
| Ed25519PasswordAuth
| PamPasswordAuth
| Sha256PasswordAuth
| CachingSha2PasswordAuth
| BoxedObject.

(** Modelled from the spec: the driver error codes of
    [lib/misc/errors.js], which is not among the sources; the command names
    five of them, and a server error carries the server's number. *)
Inductive Errno :=
| ER_SELF_SIGNED_NO_PWD
| ER_SELF_SIGNED
| ER_AUTHENTICATION_BAD_PACKET
| ER_NOT_SUPPORTED_AUTH_PLUGIN
| ER_AUTHENTICATION_PLUGIN_NOT_SUPPORTED
| ServerErrno (n : Z).

(** The Error Record: (message, fatal, SQLSTATE, driver error code). *)
Record SqlError := mkSqlError {
  message : string;
  fatal : bool;
  sqlState : string;
  errno : Errno
}.

Definition setFatal (e : SqlError) : SqlError :=
  mkSqlError (message e) true (sqlState e) (errno e).

(** What a [throw] can carry here. *)
Inductive JsError :=
| SqlErr (e : SqlError)
| TypeError (msg : string)
| AssertionError (actual expected : Z).

(** The value of a plugin's [onPacketReceive]: its class's method, or
    [None] once it is set to [null]. *)
Inductive Callback := ClassMethod.

Record Plugin := mkPlugin {
  cls : PluginClass;
  sequenceNo : Z;
  compressSequenceNo : Z;
  pluginData : Buffer;
  onPacketReceive : option Callback
}.

Definition isPlugin (p : Plugin) : bool :=
  match cls p with BoxedObject => false | _ => true end.

Record Opts := mkOpts {
  restrictedAuth : option (list string);
  password : option string
}.

Record Info := mkInfo {
  status : Z;
  requireValidCert : bool;
  selfSignedCertificate : bool;
  clientCapabilities : Z;
  seed : Buffer;
  tlsFingerprint : string
}.

(** The fields of the command: [this.plugin], [this.sequenceNo],
    [this.compressSequenceNo], [this.cmdParam.opts]. *)
Record Authentication := mkAuthentication {
  plugin : Plugin;
  cmd_sequenceNo : Z;
  cmd_compressSequenceNo : Z;
  cmdParam_opts : Opts
}.

(** The calls made on the collaborators. *)
Inductive Event :=
| PluginEnd (p : Plugin)                         (* p.emit('end') *)
| PluginOnPacket (p : Plugin) (packet : Buffer)  (* p.onPacketReceive(packet, ...) *)
| PluginStart (p : Plugin)                       (* p.start(out, opts, info) *)
| PluginThrowError (p : Plugin) (e : SqlError)   (* p.throwError(e, info) *)
| ThrowNewError (e : SqlError)                   (* this.throwNewError(...) *)
| Reject (e : JsError)                           (* this.reject(e) *)
| SuccessEnd.                                    (* this.successEnd() *)

Record St := mkSt {
  this : Authentication;
  info : Info;
  trace : list Event
}.

(** How a call ends: it returns, or an exception leaves it. *)
Inductive Completion :=
| Returned
| Threw (e : JsError).

(** Modelled from the spec: [Capabilities.PLUGIN_AUTH] of
    [lib/const/capabilities.js], which is not among the sources: the
    "plugin-auth supported" bit of the capability flags, bit 19 of the
    protocol. *)
Definition PLUGIN_AUTH : Z := Z.shiftl 1 19.

(** ** State updates *)

Definition emit (ev : Event) (s : St) : St :=
  mkSt (this s) (info s) (trace s ++ [ev]).

Definition setPlugin (p : Plugin) (s : St) : St :=
  mkSt (mkAuthentication p (cmd_sequenceNo (this s))
          (cmd_compressSequenceNo (this s)) (cmdParam_opts (this s)))
       (info s) (trace s).

(** [this.plugin.onPacketReceive = null] *)
Definition clearCallback (s : St) : St :=
  let p := plugin (this s) in
  setPlugin (mkPlugin (cls p) (sequenceNo p) (compressSequenceNo p)
               (pluginData p) None) s.

(** [info.status = v] *)
Definition setStatus (v : Z) (s : St) : St :=
  let i := info s in
  mkSt (this s)
       (mkInfo v (requireValidCert i) (selfSignedCertificate i)
          (clientCapabilities i) (seed i) (tlsFingerprint i))
       (trace s).

(** Modelled from the spec: [Command.throwNewError] of [lib/cmd/command.js],
    which is not among the sources: it builds the Error Record and hands it
    to the command's failure path ("the pending result is rejected with the
    Error Record"); it returns, it does not throw. *)
Definition throwNewError (msg : string) (isFatal : bool) (state : string)
    (code : Errno) (s : St) : St :=
  emit (ThrowNewError (mkSqlError msg isFatal state code)) s.

(** Modelled from the spec: [Errors.createFatalError] of
    [lib/misc/errors.js], which is not among the sources: an Error Record
    whose fatal flag is set. *)
Definition createFatalError (msg : string) (code : Errno) (state : string)
    : SqlError :=
  mkSqlError msg true state code.

(** ** The plugin registry *)

(** The own properties of the object literal [authenticationPlugins]. *)
Definition registry : list (string * PluginClass) :=
  [ ("mysql_native_password"%string, NativePasswordAuth);
    ("mysql_clear_password"%string, ClearPasswordAuth);
    ("client_ed25519"%string, Ed25519PasswordAuth);
    ("dialog"%string, PamPasswordAuth);
    ("sha256_password"%string, Sha256PasswordAuth);
    ("caching_sha2_password"%string, CachingSha2PasswordAuth) ].

Fixpoint assoc {A : Type} (l : list (string * A)) (k : string) : option A :=
  match l with
  | [] => None
  | (k', v) :: r => if String.eqb k' k then Some v else assoc r k
  end.

(** What [authenticationPlugins[pluginName]] can evaluate to. *)
Inductive Property :=
| PluginConstructor (c : PluginClass)  (* one of the six required classes *)
| ObjectConstructor                    (* the function Object *)
| NotAConstructor.                     (* a built-in method, or Object.prototype *)

(** The properties every object literal inherits from [Object.prototype];
    all of them are truthy, and only [constructor] can be called with
    [new]. *)
Definition Object_prototype : list (string * Property) :=
  [ ("constructor"%string, ObjectConstructor);
    ("__defineGetter__"%string, NotAConstructor);
    ("__defineSetter__"%string, NotAConstructor);
    ("hasOwnProperty"%string, NotAConstructor);
    ("__lookupGetter__"%string, NotAConstructor);
    ("__lookupSetter__"%string, NotAConstructor);
    ("isPrototypeOf"%string, NotAConstructor);
    ("propertyIsEnumerable"%string, NotAConstructor);
    ("toString"%string, NotAConstructor);
    ("valueOf"%string, NotAConstructor);
    ("__proto__"%string, NotAConstructor);
    ("toLocaleString"%string, NotAConstructor) ].

(** [authenticationPlugins[pluginName]]: an own property, else an inherited
    one, else [undefined]. *)
Definition authenticationPlugins (pluginName : string) : option Property :=
  match assoc registry pluginName with
  | Some c => Some (PluginConstructor c)
  | None => assoc Object_prototype pluginName
  end.

(** ** Collaborators *)

(** The capability contract of a verification plugin; the bodies of the
    plugins are outside this command.  [start p] is [None] when
    [p.start(out, opts, info)] returns and [Some e] when it throws [e]. *)
Class PluginContract := {
  permitHash : Plugin -> bool;
  hash : Plugin -> Opts -> Buffer;
  start : Plugin -> option JsError
}.

(** What the command takes from Node and from the packet reader:
    [Crypto.createHash('sha256')] fed with a buffer, [Buffer.toString] with
    an encoding, and [packet.readError], the parser of the standard error
    payload. *)
Class Environment := {
  sha256 : Buffer -> Buffer;
  bufferToString : Encoding -> Buffer -> string;
  readError : Info -> Packet.t -> SqlError
}.

(** [packet.readStringNullEnded(encoding)] *)
Definition readStringNullEnded `{Environment} (encoding : Encoding)
    (p : Packet.t) : string * Packet.t :=
  let '(bytes, p') := Packet.readBytesNullEnded p in
  (bufferToString encoding bytes, p').

(** ** The command *)

(** Truthiness of an optional string, and [v === '']. *)
Definition truthy (v : option string) : bool :=
  match v with
  | None => false
  | Some s => negb (String.eqb s "")
  end.

Definition isEmptyString (v : option string) : bool :=
  match v with
  | None => false
  | Some s => String.eqb s ""
  end.

(** [onPacketReceive(packet, out, opts, info)] of the command: the packet
    goes to the active plugin's callback; calling [null] is a TypeError. *)
Definition Authentication_onPacketReceive (packet : Packet.t) (s : St)
    : Completion * St :=
  let p := plugin (this s) in
  let p' := mkPlugin (cls p) (cmd_sequenceNo (this s))
              (cmd_compressSequenceNo (this s)) (pluginData p)
              (onPacketReceive p) in
  let s1 := setPlugin p' s in
  match onPacketReceive p' with
  | None =>
      (Threw (TypeError "this.plugin.onPacketReceive is not a function"), s1)
  | Some ClassMethod => (Returned, emit (PluginOnPacket p' packet) s1)
  end.

(** [validateFingerPrint(validationHash, info)]: [inr b] when it returns
    [b], [inl e] when it throws [e]. *)
Definition validateFingerPrint `{PluginContract} `{Environment}
    (validationHash : Buffer) (self : Authentication) (i : Info)
    : JsError + bool :=
  match validationHash with
  | [] => inr false
  | tag :: _ =>
      if negb (tag =? 0x01) then inl (AssertionError tag 0x01)
      else if negb (isPlugin (plugin self))
      then inl (TypeError "this.plugin.hash is not a function")
      else
        let pwdHash := hash (plugin self) (cmdParam_opts self) in
        let digest :=
          sha256 (pwdHash ++ seed i ++ Buffer_from_hex (tlsFingerprint i)) in
        let hashHex := toHexString digest in
        let serverValidationHex :=
          toLowerCase (bufferToString AsciiEncoding (skipn 1 validationHash)) in
        inr (String.eqb hashHex serverValidationHex)
  end.

(** [pluginHandler]: [inr p] is the object built by [new pluginAuth(...)],
    [inl e] a thrown [e]. *)
Definition pluginHandler (pluginName : string) (packSeq compressPackSeq : Z)
    (data : Buffer) : JsError + Plugin :=
  match authenticationPlugins pluginName with
  | None =>
      inl (SqlErr (createFatalError
             ("Client does not support authentication protocol '"
                ++ pluginName ++ "' requested by server.")%string
             ER_AUTHENTICATION_PLUGIN_NOT_SUPPORTED
             "08004"))
  | Some (PluginConstructor c) =>
      inr (mkPlugin c packSeq compressPackSeq data (Some ClassMethod))
  | Some ObjectConstructor =>
      inr (mkPlugin BoxedObject packSeq compressPackSeq data None)
  | Some NotAConstructor => inl (TypeError "pluginAuth is not a constructor")
  end.

(** The first part of [dispatchAuthSwitchRequest]: the mechanism name and
    the challenge read from the packet. *)
Definition readAuthSwitchRequest `{Environment} (packet : Packet.t)
    (i : Info) : string * Buffer :=
  if negb (Z.land (clientCapabilities i) PLUGIN_AUTH =? 0) then
    let p1 := Packet.skip 1 packet in (* header *)
    if Packet.remaining p1 then
      let '(pluginName, p2) := readStringNullEnded DefaultEncoding p1 in
      let '(data, _) := Packet.readBufferRemaining p2 in
      (pluginName, data)
    else ("mysql_old_password"%string, firstn 8 (seed i))
  else
    let '(pluginName, p1) := readStringNullEnded AsciiEncoding packet in
    let '(data, _) := Packet.readBufferRemaining p1 in
    (pluginName, data).

Definition notPermittedMessage (pluginName : string) (allowed : list string)
    : string :=
  ("Unsupported authentication plugin " ++ pluginName
     ++ ". Authorized plugin: " ++ arrayToString allowed)%string.

(** The body of the [try] block: the first exception ends it and goes to
    [this.reject]. *)
Definition switchPlugin `{PluginContract} (pluginName : string)
    (data : Buffer) (s : St) : St :=
  let old := plugin (this s) in
  if negb (isPlugin old)
  then emit (Reject (TypeError "this.plugin.emit is not a function")) s
  else
    let s1 := emit (PluginEnd old) s in
    let s2 := clearCallback s1 in
    match pluginHandler pluginName (sequenceNo old) (compressSequenceNo old)
            data with
    | inl err => emit (Reject err) s2
    | inr p =>
        let s3 := setPlugin p s2 in
        if negb (isPlugin p)
        then emit (Reject (TypeError "this.plugin.start is not a function")) s3
        else
          let s4 := emit (PluginStart p) s3 in
          match start p with
          | None => s4
          | Some err => emit (Reject err) s4
          end
    end.

Definition dispatchAuthSwitchRequest `{PluginContract} `{Environment}
    (packet : Packet.t) (opts : Opts) (s : St) : Completion * St :=
  let '(pluginName, data) := readAuthSwitchRequest packet (info s) in
  match restrictedAuth opts with
  | Some allowed =>
      if negb (includes allowed pluginName)
      then (Returned,
            throwNewError (notPermittedMessage pluginName allowed) true
              "42000" ER_NOT_SUPPORTED_AUTH_PLUGIN s)
      else (Returned, switchPlugin pluginName data s)
  | None => (Returned, switchPlugin pluginName data s)
  end.

Definition selfSignedNoPwdMessage : string :=
  "Self signed certificates. Either set `ssl: { rejectUnauthorized: false }` (trust mode) or provide server certificate to client".

Definition selfSigned (s : St) : Completion * St :=
  (Returned, throwNewError "self-signed certificate" true "08000" ER_SELF_SIGNED s).

Definition markerToString (marker : option Z) : string :=
  match marker with
  | None => "undefined"
  | Some m => numberToString m
  end.

(** The OK_Packet branch once the status is stored, when TLS was forced to
    trust and certificate validation is required; [p] is the cursor after
    the status field. *)
Definition checkSelfSigned `{PluginContract} `{Environment}
    (p : Packet.t) (s : St) : Completion * St :=
  let p1 := Packet.skip 2 p in (* skip warning count *)
  if Packet.remaining p1 then
    match fst (Packet.readBufferLengthEncoded p1) with
    | None =>
        (Threw (TypeError "Cannot read properties of null (reading 'length')"), s)
    | Some validationHash =>
        if (0 <? Z.of_nat (List.length validationHash)) then
          if negb (isPlugin (plugin (this s)))
          then (Threw (TypeError "this.plugin.permitHash is not a function"), s)
          else if negb (permitHash (plugin (this s)))
                  || negb (truthy (password (cmdParam_opts (this s))))
                  || isEmptyString (password (cmdParam_opts (this s)))
          then (Returned,
                throwNewError selfSignedNoPwdMessage true "08000"
                  ER_SELF_SIGNED_NO_PWD s)
          else
            match validateFingerPrint validationHash (this s) (info s) with
            | inl e => (Threw e, s)
            | inr true => (Returned, emit SuccessEnd s)
            | inr false => selfSigned s
            end
        else selfSigned s
    end
  else selfSigned s.

Definition unexpectedPacket (marker : option Z) (s : St) : Completion * St :=
  (Returned,
   throwNewError
     ("Unexpected type of packet during handshake phase : "
        ++ markerToString marker)%string
     true "42000" ER_AUTHENTICATION_BAD_PACKET s).

(** [handshakeResult(packet, out, opts, info)] *)
Definition handshakeResult `{PluginContract} `{Environment}
    (packet : Packet.t) (opts : Opts) (s : St) : Completion * St :=
  let marker := Packet.peek packet in
  match marker with
  | Some m =>
      if m =? 0xfe then dispatchAuthSwitchRequest packet opts s
      else if m =? 0x00 then
        let s1 := clearCallback s in
        let p1 := Packet.skip 1 packet in (* skip header *)
        let p2 := Packet.skipLengthCodedNumber p1 in (* skip affected rows *)
        let p3 := Packet.skipLengthCodedNumber p2 in (* skip last insert id *)
        let '(v, p4) := Packet.readUInt16 p3 in
        let s2 := setStatus v s1 in
        if requireValidCert (info s2) && selfSignedCertificate (info s2)
        then checkSelfSigned p4 s2
        else (Returned, emit SuccessEnd s2)
      else if m =? 0xff then
        let s1 := clearCallback s in
        let authErr := setFatal (readError (info s1) packet) in
        if negb (isPlugin (plugin (this s1)))
        then (Threw (TypeError "this.plugin.throwError is not a function"), s1)
        else (Returned, emit (PluginThrowError (plugin (this s1)) authErr) s1)
      else unexpectedPacket marker s
  | None => unexpectedPacket marker s
  end.

(** ** Vocabulary of the properties *)

(** Equality of two strings up to case. *)
Definition sameIgnoringCase (a b : string) : Prop :=
  toLowerCase a = toLowerCase b.

(** The digest the client computes: SHA-256 of the credential hash, the
    session seed and the bytes of the certificate fingerprint. *)
Definition expectedDigest `{PluginContract} `{Environment}
    (self : Authentication) (i : Info) : Buffer :=
  sha256 (hash (plugin self) (cmdParam_opts self) ++ seed i
            ++ Buffer_from_hex (tlsFingerprint i)).

(** The calls made between two states. *)
Definition newCalls (before after : St) : list Event :=
  skipn (List.length (trace before)) (trace after).

(** The calls whose receiver is a plugin. *)
Definition isPluginCall (ev : Event) : bool :=
  match ev with
  | PluginEnd _ | PluginOnPacket _ _ | PluginStart _ | PluginThrowError _ _ =>
      true
  | ThrowNewError _ | Reject _ | SuccessEnd => false
  end.

(** The status field of an OK_Packet and the cursor after it: the header
    and the two length-encoded integers are skipped. *)
Definition afterStatus (packet : Packet.t) : Z * Packet.t :=
  Packet.readUInt16
    (Packet.skipLengthCodedNumber
       (Packet.skipLengthCodedNumber (Packet.skip 1 packet))).

(** The state of the command once the status of an OK_Packet is stored. *)
Definition okState (packet : Packet.t) (s : St) : St :=
  setStatus (fst (afterStatus packet)) (clearCallback s).

(** What follows the warning count of an OK_Packet: [None] when no byte
    remains, else the length-encoded validation hash ([Some None] when it
    is the NULL marker). *)
Definition validationHashOf (packet : Packet.t) : option (option Buffer) :=
  let p := Packet.skip 2 (snd (afterStatus packet)) in
  if Packet.remaining p
  then Some (fst (Packet.readBufferLengthEncoded p))
  else None.

(** The OK_Packet as the server writes it: header, affected rows, last
    insert id, the two bytes of the status, the two bytes of the warning
    count, and what follows. *)
Definition serverOkPacket (affectedRows insertId lo hi w0 w1 : Z)
    (tail : Buffer) : Packet.t :=
  0x00 :: Packet.encodeLength affectedRows ++ Packet.encodeLength insertId
       ++ lo :: hi :: w0 :: w1 :: tail.

(** ** A runnable environment *)

(** SHA-256 (FIPS 180-4) on byte lists, the function behind
    [Crypto.createHash('sha256')]. *)
Module SHA256.

Definition w32 (x : Z) : Z := x mod 2 ^ 32.

Definition rotr (n x : Z) : Z :=
  Z.lor (Z.shiftr x n) (w32 (Z.shiftl x (32 - n))).

Definition Ch (x y z : Z) : Z :=
  Z.lxor (Z.land x y) (Z.land (w32 (Z.lnot x)) z).

Definition Maj (x y z : Z) : Z :=
  Z.lxor (Z.lxor (Z.land x y) (Z.land x z)) (Z.land y z).

Definition Sigma0 (x : Z) : Z :=
  Z.lxor (Z.lxor (rotr 2 x) (rotr 13 x)) (rotr 22 x).

Definition Sigma1 (x : Z) : Z :=
  Z.lxor (Z.lxor (rotr 6 x) (rotr 11 x)) (rotr 25 x).

Definition sigma0 (x : Z) : Z :=
  Z.lxor (Z.lxor (rotr 7 x) (rotr 18 x)) (Z.shiftr x 3).

Definition sigma1 (x : Z) : Z :=
  Z.lxor (Z.lxor (rotr 17 x) (rotr 19 x)) (Z.shiftr x 10).

Definition isPrime (n : nat) : bool :=
  forallb (fun d => negb (n mod d =? 0)%nat) (seq 2 (n - 2)).

(** The first 64 primes: 2, 3, 5, ..., 311. *)
Definition primes : list Z := map Z.of_nat (filter isPrime (seq 2 310)).

(** The integer [k]-th root of [n], found bit by bit from bit [bits - 1]
    down; [r] holds the bits already decided. *)
Fixpoint rootFrom (k : Z) (bits : nat) (n r : Z) : Z :=
  match bits with
  | O => r
  | S b =>
      let r' := r + 2 ^ Z.of_nat b in
      rootFrom k b n (if r' ^ k <=? n then r' else r)
  end.

(** The first 32 bits of the fractional part of the [k]-th root of [p]. *)
Definition fractionOfRoot (k p : Z) : Z :=
  w32 (rootFrom k 40 (p * 2 ^ (32 * k)) 0).

(** The round constants come from the cube roots of the first 64 primes,
    the initial hash value from the square roots of the first 8. *)
Definition K : list Z := Eval vm_compute in map (fractionOfRoot 3) primes.

Definition H0 : list Z :=
  Eval vm_compute in map (fractionOfRoot 2) (firstn 8 primes).

(** Big-endian value of a run of bytes, and the [n] big-endian bytes of
    a value. *)
Definition be_int (bs : list Z) : Z :=
  fold_left (fun acc b => 256 * acc + Z.land b 255) bs 0.

Definition be_bytes (n : nat) (v : Z) : list Z :=
  map (fun i => (v / 256 ^ Z.of_nat i) mod 256) (rev (seq 0 n)).

(** The message, the bit 1, zeros, and the bit length on 64 bits: a
    multiple of 64 bytes. *)
Definition pad (msg : list Z) : list Z :=
  let len := Z.of_nat (List.length msg) in
  msg ++ [0x80] ++ repeat 0 (Z.to_nat ((55 - len) mod 64))
      ++ be_bytes 8 (8 * len).

Fixpoint chunks (size count : nat) (l : list Z) : list (list Z) :=
  match count with
  | O => []
  | S k => firstn size l :: chunks size k (skipn size l)
  end.

(** The message schedule, latest word first. *)
Fixpoint extend (n : nat) (w : list Z) : list Z :=
  match n with
  | O => w
  | S k =>
      let x := w32 (sigma1 (nth 1 w 0) + nth 6 w 0
                      + sigma0 (nth 14 w 0) + nth 15 w 0) in
      extend k (x :: w)
  end.

Definition schedule (block : list Z) : list Z :=
  rev (extend 48 (rev (map be_int (chunks 4 16 block)))).

Definition round (st : list Z) (kw : Z * Z) : list Z :=
  match st with
  | [a; b; c; d; e; f; g; h] =>
      let t1 := w32 (h + Sigma1 e + Ch e f g + fst kw + snd kw) in
      let t2 := w32 (Sigma0 a + Maj a b c) in
      [w32 (t1 + t2); a; b; c; w32 (d + t1); e; f; g]
  | _ => st
  end.

Definition compress (st : list Z) (block : list Z) : list Z :=
  let out := fold_left round (combine K (schedule block)) st in
  map (fun p => w32 (fst p + snd p)) (combine st out).

Definition digest (msg : list Z) : list Z :=
  let padded := pad msg in
  let blocks := chunks 64 (List.length padded / 64) padded in
  flat_map (be_bytes 4) (fold_left compress blocks H0).

End SHA256.

(** The bytes of a 7-bit string, and the string of 7-bit bytes. *)
Definition bytesOf (s : string) : Buffer :=
  map (fun c => Z.of_nat (nat_of_ascii c)) (list_ascii_of_string s).

Definition stringOf (b : Buffer) : string :=
  string_of_list_ascii (map (fun x => ascii_of_nat (Z.to_nat x)) b).

(** [buf.toString('ascii')] clears the high bit of every byte.  The default
    encoding (UTF-8) is the identity on bytes below 0x80; here every byte
    that is not (Node would decode it to a code unit above 255) is shown as
    a question mark. *)
Definition sampleToString (encoding : Encoding) (b : Buffer) : string :=
  match encoding with
  | AsciiEncoding => stringOf (map (fun x => Z.land x 0x7f) b)
  | DefaultEncoding => stringOf (map (fun x => if x <? 0x80 then x else 63) b)
  end.

(** The standard error payload: the 0xFF header, the error number on two
    bytes, then either '#' and a five-character SQLSTATE before the message
    or the message alone (SQLSTATE HY000).  The parser marks the error
    fatal for the connection-level SQLSTATEs only. *)
Definition sampleReadError (i : Info) (p : Packet.t) : SqlError :=
  let '(code, p1) := Packet.readUInt16 (Packet.skip 1 p) in
  if match Packet.peek p1 with Some m => m =? 0x23 | None => false end then
    let state := sampleToString DefaultEncoding (firstn 5 (skipn 1 p1)) in
    mkSqlError
      (sampleToString DefaultEncoding (Packet.untilNull (skipn 6 p1)))
      (String.prefix "08" state || String.eqb state "70100")
      state (ServerErrno code)
  else
    mkSqlError (sampleToString DefaultEncoding p1) false "HY000"
      (ServerErrno code).

#[export] Instance sampleEnvironment : Environment := {
  sha256 := SHA256.digest;
  bufferToString := sampleToString;
  readError := sampleReadError
}.

(** A sample population of plugins: the clear-text and the interactive
    mechanisms emit no hash, the others emit the SHA-256 digest of the
    password; [start] returns. *)
#[export] Instance samplePlugins : PluginContract := {
  permitHash p :=
    match cls p with
    | ClearPasswordAuth | PamPasswordAuth | BoxedObject => false
    | _ => true
    end;
  hash p o :=
    match password o with
    | Some pw => SHA256.digest (bytesOf pw)
    | None => []
    end;
  start p := None
}.

(** The state of a command that has just been created: the slot holds
    [new Handshake(...)]. *)
Definition initialPlugin : Plugin := mkPlugin Handshake 0 0 [] (Some ClassMethod).

Definition initialState (o : Opts) (i : Info) : St :=
  mkSt (mkAuthentication initialPlugin 1 0 o) i [].

(** Sample sessions. *)
Definition sampleSeed : Buffer := map Z.of_nat (seq 1 20).

Definition sampleInfo (capabilities : Z) (validCert selfSignedCert : bool)
    : Info :=
  mkInfo 0 validCert selfSignedCert capabilities sampleSeed
    "a1b2c3d4e5f60718293a4b5c6d7e8f90".

Definition sampleOpts : Opts := mkOpts None (Some "secret"%string).

(** An OK_Packet: no affected row, no insert id, status 2, no warning, and
    what follows the warning count. *)
Definition okPacket (tail : Buffer) : Packet.t :=
  [0x00; 0; 0; 0x02; 0x00; 0; 0] ++ tail.

(** A validation hash: the tag, then the digest in hexadecimal. *)
Definition sampleValidationHash (tag : Z) : Buffer :=
  tag :: bytesOf "C40BC2E9F24CFE702268FF06B81A4FC94AF2F6F582C403D87CD0F0D2C3C8F926".

(** An AuthSwitchRequest naming a mechanism, with its challenge. *)
Definition authSwitchPacket (name : string) (challenge : Buffer) : Packet.t :=
  0xfe :: bytesOf name ++ 0 :: challenge.

(** An ERR_Packet: error 1045, SQLSTATE 28000. *)
Definition errPacket : Packet.t :=
  [0xff; 0x15; 0x04; 0x23] ++ bytesOf "28000" ++ bytesOf "Access denied".

(** ** Vocabulary of the further properties *)

(** The test [opts.restrictedAuth && !opts.restrictedAuth.includes(name)],
    negated: no allow-list, or a list that includes the name. *)
Definition permitted (opts : Opts) (pluginName : string) : bool :=
  match restrictedAuth opts with
  | Some allowed => includes allowed pluginName
  | None => true
  end.

(** The calls that end the handshake: success, or an error handed to a
    failure path. *)
Definition isConclusion (ev : Event) : bool :=
  match ev with
  | SuccessEnd | ThrowNewError _ | Reject _ | PluginThrowError _ _ => true
  | PluginEnd _ | PluginOnPacket _ _ | PluginStart _ => false
  end.

(** The mechanism name and the challenge of an AuthSwitchRequest. *)
Definition requestedName `{Environment} (packet : Packet.t) (s : St) : string :=
  fst (readAuthSwitchRequest packet (info s)).

Definition challenge `{Environment} (packet : Packet.t) (s : St) : Buffer :=
  snd (readAuthSwitchRequest packet (info s)).

(** The errors the command builds itself. *)
Definition unexpectedError (marker : option Z) : SqlError :=
  mkSqlError
    ("Unexpected type of packet during handshake phase : "
       ++ markerToString marker)%string
    true "42000" ER_AUTHENTICATION_BAD_PACKET.

Definition notPermittedError (pluginName : string) (opts : Opts) : SqlError :=
  mkSqlError
    (notPermittedMessage pluginName
       (match restrictedAuth opts with Some allowed => allowed | None => [] end))
    true "42000" ER_NOT_SUPPORTED_AUTH_PLUGIN.

Definition unsupportedError (pluginName : string) : SqlError :=
  mkSqlError
    ("Client does not support authentication protocol '" ++ pluginName
       ++ "' requested by server.")%string
    true "08004" ER_AUTHENTICATION_PLUGIN_NOT_SUPPORTED.

(** The state once the previous plugin is told of its end and detached. *)
Definition detached (s : St) : St :=
  clearCallback (emit (PluginEnd (plugin (this s))) s).

(** The plugin that [new pluginAuth(...)] builds for a class of the
    registry, from the counters of the previous plugin. *)
Definition built (c : PluginClass) (old : Plugin) (data : Buffer) : Plugin :=
  mkPlugin c (sequenceNo old) (compressSequenceNo old) data (Some ClassMethod).

(** Every way [handshakeResult] can end on one packet, with the state it
    leaves. *)
Inductive Reaction `{PluginContract} `{Environment}
    (packet : Packet.t) (opts : Opts) (s : St) : Completion -> St -> Prop :=
| Unexpected :
    (forall m, Packet.peek packet = Some m ->
               m <> 0xfe /\ m <> 0x00 /\ m <> 0xff) ->
    Reaction packet opts s Returned
      (emit (ThrowNewError (unexpectedError (Packet.peek packet))) s)
| Succeeded :
    Packet.peek packet = Some 0x00 ->
    Reaction packet opts s Returned (emit SuccessEnd (okState packet s))
| CertificateRefused (e : SqlError) :
    Packet.peek packet = Some 0x00 ->
    requireValidCert (info s) = true ->
    selfSignedCertificate (info s) = true ->
    fatal e = true ->
    sqlState e = "08000"%string ->
    errno e = ER_SELF_SIGNED \/ errno e = ER_SELF_SIGNED_NO_PWD ->
    Reaction packet opts s Returned (emit (ThrowNewError e) (okState packet s))
| CertificateCheckThrew (e : JsError) :
    Packet.peek packet = Some 0x00 ->
    requireValidCert (info s) = true ->
    selfSignedCertificate (info s) = true ->
    Reaction packet opts s (Threw e) (okState packet s)
| ServerError :
    Packet.peek packet = Some 0xff ->
    isPlugin (plugin (this s)) = true ->
    Reaction packet opts s Returned
      (emit (PluginThrowError (plugin (this (clearCallback s)))
               (setFatal (readError (info s) packet)))
         (clearCallback s))
| ServerErrorThrew (e : JsError) :
    Packet.peek packet = Some 0xff ->
    isPlugin (plugin (this s)) = false ->
    Reaction packet opts s (Threw e) (clearCallback s)
| NotPermitted :
    Packet.peek packet = Some 0xfe ->
    permitted opts (requestedName packet s) = false ->
    Reaction packet opts s Returned
      (emit (ThrowNewError (notPermittedError (requestedName packet s) opts)) s)
| NoPluginToEnd (e : JsError) :
    Packet.peek packet = Some 0xfe ->
    permitted opts (requestedName packet s) = true ->
    isPlugin (plugin (this s)) = false ->
    Reaction packet opts s Returned (emit (Reject e) s)
| NotBuilt (e : JsError) :
    Packet.peek packet = Some 0xfe ->
    permitted opts (requestedName packet s) = true ->
    isPlugin (plugin (this s)) = true ->
    assoc registry (requestedName packet s) = None ->
    Reaction packet opts s Returned (emit (Reject e) (detached s))
| BuiltNoPlugin (e : JsError) (p : Plugin) :
    Packet.peek packet = Some 0xfe ->
    permitted opts (requestedName packet s) = true ->
    isPlugin (plugin (this s)) = true ->
    assoc registry (requestedName packet s) = None ->
    assoc Object_prototype (requestedName packet s) = Some ObjectConstructor ->
    isPlugin p = false ->
    onPacketReceive p = None ->
    Reaction packet opts s Returned
      (emit (Reject e) (setPlugin p (detached s)))
| Switched (c : PluginClass) :
    Packet.peek packet = Some 0xfe ->
    permitted opts (requestedName packet s) = true ->
    isPlugin (plugin (this s)) = true ->
    assoc registry (requestedName packet s) = Some c ->
    start (built c (plugin (this s)) (challenge packet s)) = None ->
    Reaction packet opts s Returned
      (emit (PluginStart (built c (plugin (this s)) (challenge packet s)))
         (setPlugin (built c (plugin (this s)) (challenge packet s))
            (detached s)))
| StartThrew (c : PluginClass) (e : JsError) :
    Packet.peek packet = Some 0xfe ->
    permitted opts (requestedName packet s) = true ->
    isPlugin (plugin (this s)) = true ->
    assoc registry (requestedName packet s) = Some c ->
    start (built c (plugin (this s)) (challenge packet s)) = Some e ->
    Reaction packet opts s Returned
      (emit (Reject e)
         (emit (PluginStart (built c (plugin (this s)) (challenge packet s)))
            (setPlugin (built c (plugin (this s)) (challenge packet s))
               (detached s)))).

(** A population whose plugins all fail to start. *)
Definition refusingPlugins : PluginContract := {|
  permitHash := fun _ => true;
  hash := fun _ _ => [];
  start := fun _ => Some (TypeError "start failed")
|}.

(** The command handed a sequence of packets, each one through
    [handshakeResult]. *)
Fixpoint handshake `{PluginContract} `{Environment}
    (packets : list Packet.t) (opts : Opts) (s : St) : St :=
  match packets with
  | [] => s
  | packet :: later =>
      handshake later opts (snd (handshakeResult packet opts s))
  end.

(** A buffer without a zero byte. *)
Definition noNull (b : Buffer) : Prop := Forall (fun x => x <> 0) b.

(** ** Properties *)

(** *** Facts about the helpers *)

Lemma lor_shiftl_8 (lo hi : Z) :
  0 <= lo < 256 -> 0 <= hi ->
  Z.lor lo (Z.shiftl hi 8) = lo + 256 * hi.
Proof.
  intros Hlo Hhi.
  rewrite Z.shiftl_mul_pow2 by lia.
  change (2 ^ 8) with 256.
  assert (Hdisj : Z.land lo (hi * 256) = 0).
  { apply Z.bits_inj'. intros n Hn.
    rewrite Z.land_spec, Z.bits_0.
    destruct (Z.lt_ge_cases n 8) as [Hlt | Hge].
    - replace (hi * 256) with (hi * 2 ^ 8) by reflexivity.
      rewrite (Z.mul_pow2_bits_low hi 8 n) by lia.
      apply andb_false_r.
    - assert (Z.testbit lo n = false) as ->; [|reflexivity].
      destruct (Z.eq_dec lo 0) as [-> | Hne]; [apply Z.bits_0|].
      apply Z.bits_above_log2; [lia|].
      assert (Z.log2 lo < 8); [|lia].
      apply Z.log2_lt_pow2; lia. }
  pose proof (Z.add_lor_land lo (hi * 256)) as Hadd.
  rewrite Hdisj in Hadd. lia.
Qed.

Lemma skipLengthCodedNumber_encodeLength (v : Z) (rest : Buffer) :
  0 <= v < 2 ^ 64 ->
  Packet.skipLengthCodedNumber (Packet.encodeLength v ++ rest) = rest.
Proof.
  intros Hv. unfold Packet.encodeLength.
  destruct (v <? 251) eqn:E1.
  - apply Z.ltb_lt in E1. cbn [app Packet.skipLengthCodedNumber].
    assert ((v =? 252) = false) as -> by (apply Z.eqb_neq; lia).
    assert ((v =? 253) = false) as -> by (apply Z.eqb_neq; lia).
    assert ((v =? 254) = false) as -> by (apply Z.eqb_neq; lia).
    reflexivity.
  - destruct (v <? 65536); [reflexivity|].
    destruct (v <? 16777216); reflexivity.
Qed.

Lemma le_int_digits (v : Z) (n k : nat) :
  le_int (map (fun i => (v / 256 ^ Z.of_nat i) mod 256) (seq k n))
  = (v / 256 ^ Z.of_nat k) mod 256 ^ Z.of_nat n.
Proof.
  revert k. induction n as [|n IH]; intros k.
  - cbn [seq map le_int]. change (256 ^ Z.of_nat 0) with 1.
    rewrite Z.mod_1_r. reflexivity.
  - cbn [seq map le_int]. rewrite IH.
    replace (Z.of_nat (S n)) with (1 + Z.of_nat n) by lia.
    replace (Z.of_nat (S k)) with (Z.of_nat k + 1) by lia.
    rewrite !Z.pow_add_r by lia. change (256 ^ 1) with 256.
    rewrite <- Z.div_div by lia.
    rewrite Z.rem_mul_r by lia. reflexivity.
Qed.

Lemma le_int_bytesLE (n : nat) (v : Z) :
  0 <= v < 256 ^ Z.of_nat n -> le_int (Packet.bytesLE n v) = v.
Proof.
  intros Hv. unfold Packet.bytesLE. rewrite le_int_digits.
  change (256 ^ Z.of_nat 0) with 1. rewrite Z.div_1_r.
  apply Z.mod_small. exact Hv.
Qed.

Lemma take_exact (b rest : Buffer) :
  Packet.take (Z.of_nat (List.length b)) (b ++ rest) = List.length b.
Proof.
  unfold Packet.take. rewrite length_app. lia.
Qed.

(** What the server writes as a length-encoded buffer is what
    [readBufferLengthEncoded] reads. *)
Lemma readBufferLengthEncoded_encodeLength (b rest : Buffer) :
  Z.of_nat (List.length b) < 2 ^ 64 ->
  Packet.readBufferLengthEncoded
    (Packet.encodeLength (Z.of_nat (List.length b)) ++ b ++ rest)
  = (Some b, rest).
Proof.
  intros Hlen. set (len := Z.of_nat (List.length b)) in *.
  assert (Hread : Packet.readUnsignedLength
                    (Packet.encodeLength len ++ b ++ rest)
                  = (Some len, b ++ rest)).
  { unfold Packet.encodeLength.
    destruct (len <? 251) eqn:E1.
    { cbn [app Packet.readUnsignedLength]. rewrite E1. reflexivity. }
    apply Z.ltb_ge in E1.
    destruct (len <? 65536) eqn:E2.
    { apply Z.ltb_lt in E2.
      change (Packet.readUnsignedLength ((252 :: Packet.bytesLE 2 len) ++ b ++ rest))
        with (Some (le_int (Packet.bytesLE 2 len)), b ++ rest).
      rewrite le_int_bytesLE; [reflexivity|].
      change (256 ^ Z.of_nat 2) with 65536. lia. }
    apply Z.ltb_ge in E2.
    destruct (len <? 16777216) eqn:E3.
    { apply Z.ltb_lt in E3.
      change (Packet.readUnsignedLength ((253 :: Packet.bytesLE 3 len) ++ b ++ rest))
        with (Some (le_int (Packet.bytesLE 3 len)), b ++ rest).
      rewrite le_int_bytesLE; [reflexivity|].
      change (256 ^ Z.of_nat 3) with 16777216. lia. }
    apply Z.ltb_ge in E3.
    change (Packet.readUnsignedLength ((254 :: Packet.bytesLE 8 len) ++ b ++ rest))
      with (Some (le_int (Packet.bytesLE 8 len)), b ++ rest).
    rewrite le_int_bytesLE; [reflexivity|].
    change (256 ^ Z.of_nat 8) with (2 ^ 64). lia. }
  unfold Packet.readBufferLengthEncoded. rewrite Hread.
  unfold len. rewrite take_exact, firstn_app, skipn_app, firstn_all, skipn_all.
  rewrite Nat.sub_diag. cbn [firstn skipn app]. rewrite app_nil_r. reflexivity.
Qed.

Lemma clearCallback_inert (s : St) :
  onPacketReceive (plugin (this (clearCallback s))) = None.
Proof. reflexivity. Qed.

Lemma clearCallback_isPlugin (s : St) :
  isPlugin (plugin (this (clearCallback s))) = isPlugin (plugin (this s)).
Proof. reflexivity. Qed.

(** Once the callback is cleared, a packet handed to the command reaches no
    plugin: the call ends in a TypeError and the trace does not grow. *)
Lemma inert_plugin_receives_nothing (packet : Packet.t) (s : St) :
  onPacketReceive (plugin (this s)) = None ->
  exists msg s',
    Authentication_onPacketReceive packet s = (Threw (TypeError msg), s')
    /\ trace s' = trace s.
Proof.
  intros Hnull. unfold Authentication_onPacketReceive. cbn.
  rewrite Hnull. eauto.
Qed.

(** *** ERR_Packet *)

(** C1: for every inbound packet whose first byte is 0xFF, whatever the
    state the handshake is in, [handshakeResult] clears the active plugin's
    packet callback (a later packet reaches no plugin), parses the standard
    error payload with [readError], sets the fatal flag of the resulting
    error, and hands it to the active plugin's [throwError]; nothing else
    is called. *)
Theorem handshakeResult_err_packet `{PluginContract} `{Environment}
    (payload : Buffer) (opts : Opts) (s : St) :
  isPlugin (plugin (this s)) = true ->
  let packet := 0xff :: payload in
  let s1 := clearCallback s in
  let authErr := setFatal (readError (info s) packet) in
  handshakeResult packet opts s
    = (Returned, emit (PluginThrowError (plugin (this s1)) authErr) s1)
  /\ onPacketReceive (plugin (this s1)) = None
  /\ fatal authErr = true
  /\ message authErr = message (readError (info s) packet)
  /\ sqlState authErr = sqlState (readError (info s) packet)
  /\ errno authErr = errno (readError (info s) packet)
  /\ (forall next, exists msg s',
        Authentication_onPacketReceive next
          (snd (handshakeResult packet opts s)) = (Threw (TypeError msg), s')
        /\ trace s' = trace s ++ [PluginThrowError (plugin (this s1)) authErr]).
Proof.
  intros Hplugin packet s1 authErr.
  assert (Hres : handshakeResult packet opts s
      = (Returned, emit (PluginThrowError (plugin (this s1)) authErr) s1)).
  { unfold handshakeResult, packet. cbn [Packet.peek hd_error].
    change (0xff =? 0xfe) with false. change (0xff =? 0x00) with false.
    change (0xff =? 0xff) with true. cbv iota.
    rewrite clearCallback_isPlugin, Hplugin. reflexivity. }
  repeat split; try reflexivity; try exact Hres.
  intros next. rewrite Hres. cbn [snd].
  apply inert_plugin_receives_nothing. reflexivity.
Qed.

(** *** OK_Packet *)

(** C2: for every inbound packet whose first byte is 0x00, followed by two
    length-encoded integers (affected rows, last insert id) and a two-byte
    status, when [requireValidCert] and [selfSignedCertificate] are not
    both set, [handshakeResult] clears the active plugin's packet callback,
    stores the status field in [info.status] and concludes success at once:
    [successEnd] is the only call, and a later packet reaches no plugin.
    For the packet [0x00, 0, 0, status = 0x0002] the status is 2. *)
Theorem handshakeResult_ok_packet `{PluginContract} `{Environment}
    (affectedRows insertId lo hi : Z) (rest : Buffer) (opts : Opts) (s : St) :
  0 <= affectedRows < 2 ^ 64 ->
  0 <= insertId < 2 ^ 64 ->
  0 <= lo < 256 ->
  0 <= hi < 256 ->
  requireValidCert (info s) && selfSignedCertificate (info s) = false ->
  let packet :=
    0x00 :: Packet.encodeLength affectedRows ++ Packet.encodeLength insertId
         ++ lo :: hi :: rest in
  let s' := snd (handshakeResult packet opts s) in
  handshakeResult packet opts s
    = (Returned, emit SuccessEnd (setStatus (lo + 256 * hi) (clearCallback s)))
  /\ status (info s') = lo + 256 * hi
  /\ onPacketReceive (plugin (this s')) = None
  /\ trace s' = trace s ++ [SuccessEnd]
  /\ (forall next, exists msg s'',
        Authentication_onPacketReceive next s' = (Threw (TypeError msg), s'')
        /\ trace s'' = trace s ++ [SuccessEnd])
  /\ (forall o, status (info (snd (handshakeResult [0x00; 0; 0; 0x02; 0x00] o s))) = 2).
Proof.
  intros Ha Hb Hlo Hhi Hflags packet s'.
  assert (Hres : handshakeResult packet opts s
      = (Returned, emit SuccessEnd (setStatus (lo + 256 * hi) (clearCallback s)))).
  { unfold handshakeResult, packet. cbn [Packet.peek hd_error].
    change (0x00 =? 0xfe) with false. change (0x00 =? 0x00) with true.
    cbv iota. cbn [Packet.skip skipn].
    rewrite skipLengthCodedNumber_encodeLength by assumption.
    rewrite skipLengthCodedNumber_encodeLength by assumption.
    unfold Packet.readUInt16. cbn [nth skipn].
    rewrite lor_shiftl_8 by lia.
    cbn [setStatus clearCallback setPlugin info requireValidCert
         selfSignedCertificate this].
    rewrite Hflags. reflexivity. }
  subst s'. rewrite Hres. cbn [snd].
  repeat split; try reflexivity.
  - intros next. apply inert_plugin_receives_nothing. reflexivity.
  - intros o. unfold handshakeResult. cbn.
    rewrite Hflags. reflexivity.
Qed.

(** *** Fingerprint validation *)

Lemma lowerChar_hexDigit (n : Z) :
  0 <= n < 16 -> lowerChar (hexDigit n) = hexDigit n.
Proof.
  intros Hn. rewrite <- (Z2Nat.id n) by lia.
  assert (Hk : (Z.to_nat n < 16)%nat) by lia.
  revert Hk. generalize (Z.to_nat n) as k. intros k Hk.
  do 16 (destruct k as [|k]; [reflexivity|]). lia.
Qed.

(** The hex encoding has no capital: lower-casing leaves it as it is. *)
Lemma toLowerCase_toHexString (bytes : Buffer) :
  toLowerCase (toHexString bytes) = toHexString bytes.
Proof.
  induction bytes as [|b r IH]; [reflexivity|].
  cbn [toHexString toLowerCase].
  assert (0 <= Z.land b 255 < 256) as Hv.
  { split.
    - apply Z.land_nonneg. right. lia.
    - change 255 with (Z.ones 8). rewrite Z.land_ones by lia.
      apply Z.mod_pos_bound. reflexivity. }
  rewrite !lowerChar_hexDigit, IH.
  - reflexivity.
  - apply Z.mod_pos_bound. lia.
  - split; [apply Z.div_pos; lia | apply Z.div_lt_upper_bound; lia].
Qed.

(** C3: for every non-empty server validation hash whose first byte is
    0x01, [validateFingerPrint] returns, and it returns true if and only if
    the hex encoding of SHA-256(credential hash ++ session seed ++
    certificate-fingerprint bytes) equals, up to case, the ASCII decoding of
    the validation hash after its tag byte; the credential hash is the
    active plugin's [hash] of the configured options. *)
Theorem validateFingerPrint_sha256 `{PluginContract} `{Environment}
    (rest : Buffer) (self : Authentication) (i : Info) :
  isPlugin (plugin self) = true ->
  exists b : bool,
    validateFingerPrint (0x01 :: rest) self i = inr b
    /\ (b = true <->
        sameIgnoringCase (toHexString (expectedDigest self i))
                         (bufferToString AsciiEncoding rest)).
Proof.
  intros Hplugin. unfold validateFingerPrint.
  change (negb (0x01 =? 0x01)) with false. cbv iota.
  rewrite Hplugin. cbn [negb skipn].
  eexists. split; [reflexivity|].
  unfold sameIgnoringCase, expectedDigest.
  rewrite toLowerCase_toHexString. apply String.eqb_eq.
Qed.

(** C4: for every non-empty server validation hash whose first byte is not
    the scheme tag 0x01, [validateFingerPrint] fails the assertion: it
    throws an AssertionError, it neither returns false nor produces an
    Error Record; and the assertion fails exactly when the hash is not
    empty and its tag byte is not 0x01. *)
Theorem validateFingerPrint_tag_assertion `{PluginContract} `{Environment}
    (self : Authentication) (i : Info) :
  (forall tag rest, tag <> 0x01 ->
     validateFingerPrint (tag :: rest) self i = inl (AssertionError tag 0x01))
  /\ (forall validationHash,
        (exists actual expected,
           validateFingerPrint validationHash self i
             = inl (AssertionError actual expected))
        <-> (exists tag rest, validationHash = tag :: rest /\ tag <> 0x01)).
Proof.
  assert (Hfail : forall tag rest, tag <> 0x01 ->
     validateFingerPrint (tag :: rest) self i = inl (AssertionError tag 0x01)).
  { intros tag rest Htag. unfold validateFingerPrint.
    apply Z.eqb_neq in Htag. rewrite Htag. reflexivity. }
  split; [exact Hfail|].
  intros validationHash. split.
  - intros (actual & expected & Hthrow).
    destruct validationHash as [|tag rest]; [discriminate|].
    exists tag, rest. split; [reflexivity|].
    intros ->. unfold validateFingerPrint in Hthrow.
    change (negb (0x01 =? 0x01)) with false in Hthrow. cbv iota in Hthrow.
    destruct (negb (isPlugin (plugin self))); discriminate.
  - intros (tag & rest & -> & Htag). eauto.
Qed.

(** *** AuthSwitchRequest *)

Lemma newCalls_emit (ev : Event) (s : St) : newCalls s (emit ev s) = [ev].
Proof.
  unfold newCalls, emit. cbn [trace].
  rewrite skipn_app, skipn_all, Nat.sub_diag. reflexivity.
Qed.

Lemma newCalls_same_trace (s s' : St) : trace s' = trace s -> newCalls s s' = [].
Proof. intros E. unfold newCalls. rewrite E. apply skipn_all. Qed.

Lemma handshakeResult_auth_switch `{PluginContract} `{Environment}
    (rest : Buffer) (opts : Opts) (s : St) :
  handshakeResult (0xfe :: rest) opts s
    = dispatchAuthSwitchRequest (0xfe :: rest) opts s.
Proof. reflexivity. Qed.

(** C5: for every AuthSwitchRequest packet whose parsed mechanism name is
    absent from the configured allow-list, the dispatcher fails fatally with
    the mechanism-not-permitted error, whose message names the mechanism,
    before any construction: the plugin slot keeps the previous plugin as it
    was, and the failure is the only call made (no plugin receives [start],
    the previous plugin receives no [end]). *)
Theorem dispatch_mechanism_not_permitted `{PluginContract} `{Environment}
    (rest : Buffer) (allowed : list string) (pw : option string) (s : St) :
  let packet := 0xfe :: rest in
  let opts := mkOpts (Some allowed) pw in
  let pluginName := fst (readAuthSwitchRequest packet (info s)) in
  let err :=
    mkSqlError
      ("Unsupported authentication plugin " ++ pluginName
         ++ ". Authorized plugin: " ++ arrayToString allowed)%string
      true "42000" ER_NOT_SUPPORTED_AUTH_PLUGIN in
  includes allowed pluginName = false ->
  let s' := snd (handshakeResult packet opts s) in
  handshakeResult packet opts s = (Returned, emit (ThrowNewError err) s)
  /\ this s' = this s
  /\ newCalls s s' = [ThrowNewError err]
  /\ Forall (fun ev => isPluginCall ev = false) (newCalls s s').
Proof.
  intros packet opts pluginName err Hnot s'.
  assert (Hres : handshakeResult packet opts s
                 = (Returned, emit (ThrowNewError err) s)).
  { unfold packet. rewrite handshakeResult_auth_switch.
    unfold dispatchAuthSwitchRequest. fold packet.
    subst pluginName.
    destruct (readAuthSwitchRequest packet (info s)) as [name data].
    cbn [fst] in *. cbn [restrictedAuth opts]. rewrite Hnot. reflexivity. }
  subst s'. rewrite Hres. cbn [snd]. rewrite newCalls_emit.
  repeat split; try reflexivity.
  constructor; [reflexivity | constructor].
Qed.

(** X4: a mechanism name for which [authenticationPlugins[pluginName]] is
    undefined: the previous plugin is told of its end and detached, then
    the fatal unsupported-mechanism error (SQLSTATE 08004, its message
    naming the mechanism) goes to [reject]; nothing is built or started. *)
Lemma dispatch_undefined_property `{PluginContract} `{Environment}
    (rest : Buffer) (opts : Opts) (s : St) :
  let packet := 0xfe :: rest in
  let pluginName := fst (readAuthSwitchRequest packet (info s)) in
  let old := plugin (this s) in
  let err :=
    mkSqlError
      ("Client does not support authentication protocol '" ++ pluginName
         ++ "' requested by server.")%string
      true "08004" ER_AUTHENTICATION_PLUGIN_NOT_SUPPORTED in
  isPlugin old = true ->
  match restrictedAuth opts with
  | Some allowed => includes allowed pluginName = true
  | None => True
  end ->
  authenticationPlugins pluginName = None ->
  handshakeResult packet opts s
    = (Returned, emit (Reject (SqlErr err)) (clearCallback (emit (PluginEnd old) s)))
  /\ newCalls s (snd (handshakeResult packet opts s))
     = [PluginEnd old; Reject (SqlErr err)].
Proof.
  intros packet pluginName old err Hplugin Hallowed Habsent.
  assert (Hres : handshakeResult packet opts s
    = (Returned, emit (Reject (SqlErr err)) (clearCallback (emit (PluginEnd old) s)))).
  { unfold packet. rewrite handshakeResult_auth_switch.
    unfold dispatchAuthSwitchRequest. fold packet.
    subst pluginName.
    destruct (readAuthSwitchRequest packet (info s)) as [name data].
    cbn [fst] in *.
    assert (Hswitch : switchPlugin name data s
      = emit (Reject (SqlErr err)) (clearCallback (emit (PluginEnd old) s))).
    { unfold switchPlugin. fold old. rewrite Hplugin. cbn [negb].
      unfold pluginHandler. rewrite Habsent. reflexivity. }
    destruct (restrictedAuth opts) as [allowed|].
    - rewrite Hallowed. cbn [negb]. rewrite Hswitch. reflexivity.
    - rewrite Hswitch. reflexivity. }
  split; [exact Hres|].
  rewrite Hres. cbn [snd]. unfold newCalls, emit, clearCallback, setPlugin.
  cbn [trace]. rewrite <- app_assoc, skipn_app, skipn_all, Nat.sub_diag.
  reflexivity.
Qed.

(** C7: for every AuthSwitchRequest packet received while plugin-auth
    support is among the client capabilities, if no byte remains after the
    0xFE header, the dispatcher takes "mysql_old_password" for the
    mechanism name and the first 8 bytes of the session seed for the
    challenge. *)
Theorem legacy_auth_switch_request `{Environment}
    (packet : Packet.t) (i : Info) :
  Z.land (clientCapabilities i) PLUGIN_AUTH <> 0 ->
  Packet.peek packet = Some 0xfe ->
  Packet.remaining (Packet.skip 1 packet) = false ->
  readAuthSwitchRequest packet i
    = ("mysql_old_password"%string, firstn 8 (seed i))
  /\ (forall k, (k < 8)%nat ->
        nth_error (snd (readAuthSwitchRequest packet i)) k = nth_error (seed i) k)
  /\ ((8 <= List.length (seed i))%nat ->
        List.length (snd (readAuthSwitchRequest packet i)) = 8%nat).
Proof.
  intros Hcaps _ Hnone.
  assert (Hres : readAuthSwitchRequest packet i
                 = ("mysql_old_password"%string, firstn 8 (seed i))).
  { unfold readAuthSwitchRequest.
    apply Z.eqb_neq in Hcaps. rewrite Hcaps. cbn [negb].
    rewrite Hnone. reflexivity. }
  rewrite Hres. cbn [snd]. split; [reflexivity|]. split.
  - intros k Hk. rewrite nth_error_firstn.
    apply Nat.ltb_lt in Hk. rewrite Hk. reflexivity.
  - intros Hlen. rewrite length_firstn. lia.
Qed.

(** The bytes that are decoded into the mechanism name: from the 0xFE
    marker on when plugin-auth support is not among the client
    capabilities, from the byte after it otherwise. *)
Lemma auth_switch_name_keeps_marker `{Environment}
    (rest : Buffer) (i : Info) :
  let packet := 0xfe :: rest in
  (Z.land (clientCapabilities i) PLUGIN_AUTH = 0 ->
     readAuthSwitchRequest packet i
       = (bufferToString AsciiEncoding (0xfe :: Packet.untilNull rest),
          Packet.afterNull rest))
  /\ (Z.land (clientCapabilities i) PLUGIN_AUTH <> 0 -> rest <> [] ->
        readAuthSwitchRequest packet i
          = (bufferToString DefaultEncoding (Packet.untilNull rest),
             Packet.afterNull rest)).
Proof.
  intros packet. split.
  - intros Hcaps. unfold readAuthSwitchRequest. rewrite Hcaps. reflexivity.
  - intros Hcaps Hrest. unfold readAuthSwitchRequest.
    apply Z.eqb_neq in Hcaps. rewrite Hcaps.
    destruct rest as [|b r]; [contradiction|]. reflexivity.
Qed.

(** C10: when plugin-auth support is not among the client capabilities,
    [dispatchAuthSwitchRequest] does not skip the 0xFE marker before it
    reads the null-terminated mechanism name, so the marker is the first
    byte decoded into the name: the parsed name begins with the character
    that the decoding makes of the byte 0xFE, followed by the decoded bytes
    of the name proper, and the challenge is what follows the terminator.
    The header is skipped in the plugin-auth branch only, where the name
    is the decoding of the bytes after it. *)
Theorem auth_switch_name_starts_with_decoded_marker `{Environment}
    (marker : ascii) (rest : Buffer) (i : Info) :
  (forall bytes,
     bufferToString AsciiEncoding (0xfe :: bytes)
     = String marker (bufferToString AsciiEncoding bytes)) ->
  let packet := 0xfe :: rest in
  (Z.land (clientCapabilities i) PLUGIN_AUTH = 0 ->
     readAuthSwitchRequest packet i
     = (String marker (bufferToString AsciiEncoding (Packet.untilNull rest)),
        Packet.afterNull rest))
  /\ (Z.land (clientCapabilities i) PLUGIN_AUTH <> 0 -> rest <> [] ->
        readAuthSwitchRequest packet i
        = (bufferToString DefaultEncoding (Packet.untilNull rest),
           Packet.afterNull rest)).
Proof.
  intros Hmarker packet.
  destruct (auth_switch_name_keeps_marker rest i) as [Hplain Hauth].
  split.
  - intros Hcaps. unfold packet. rewrite (Hplain Hcaps), Hmarker. reflexivity.
  - exact Hauth.
Qed.

(** *** OK_Packet over a trusted self-signed certificate *)

(** With both TLS flags set, an OK_Packet takes the command to the
    certificate check, in the state where the callback is cleared and the
    status stored. *)
Lemma handshakeResult_ok_self_signed `{PluginContract} `{Environment}
    (packet : Packet.t) (opts : Opts) (s : St) :
  Packet.peek packet = Some 0x00 ->
  requireValidCert (info s) = true ->
  selfSignedCertificate (info s) = true ->
  handshakeResult packet opts s
    = checkSelfSigned (snd (afterStatus packet)) (okState packet s).
Proof.
  intros Hpeek Hreq Hself. unfold handshakeResult. rewrite Hpeek.
  change (0x00 =? 0xfe) with false. change (0x00 =? 0x00) with true.
  cbv iota. unfold okState, afterStatus.
  destruct (Packet.readUInt16 _) as [v p4]. cbn [fst snd].
  cbn [setStatus clearCallback setPlugin info requireValidCert
       selfSignedCertificate this].
  rewrite Hreq, Hself. reflexivity.
Qed.

Lemma afterStatus_serverOkPacket (a b lo hi w0 w1 : Z) (tail : Buffer) :
  0 <= a < 2 ^ 64 -> 0 <= b < 2 ^ 64 ->
  afterStatus (serverOkPacket a b lo hi w0 w1 tail)
  = (Z.lor lo (Z.shiftl hi 8), w0 :: w1 :: tail).
Proof.
  intros Ha Hb. unfold afterStatus, serverOkPacket. cbn [Packet.skip skipn].
  rewrite !skipLengthCodedNumber_encodeLength by assumption. reflexivity.
Qed.

(** On the wire, the validation hash the command reads is the one the
    server wrote after the warning count; a packet that ends with the
    warning count carries none. *)
Lemma validationHashOf_serverOkPacket (a b lo hi w0 w1 : Z)
    (validationHash rest : Buffer) :
  0 <= a < 2 ^ 64 -> 0 <= b < 2 ^ 64 ->
  Z.of_nat (List.length validationHash) < 2 ^ 64 ->
  validationHashOf
    (serverOkPacket a b lo hi w0 w1
       (Packet.encodeLength (Z.of_nat (List.length validationHash))
          ++ validationHash ++ rest))
  = Some (Some validationHash)
  /\ validationHashOf (serverOkPacket a b lo hi w0 w1 []) = None.
Proof.
  intros Ha Hb Hlen. unfold validationHashOf.
  rewrite !afterStatus_serverOkPacket by assumption.
  cbn [snd Packet.skip skipn]. split; [|reflexivity].
  rewrite readBufferLengthEncoded_encodeLength by assumption.
  assert (Hrem : Packet.remaining
            (Packet.encodeLength (Z.of_nat (List.length validationHash))
               ++ validationHash ++ rest) = true).
  { unfold Packet.encodeLength.
    destruct (_ <? 251); [reflexivity|].
    destruct (_ <? 65536); [reflexivity|].
    destruct (_ <? 16777216); reflexivity. }
  rewrite Hrem. reflexivity.
Qed.

(** A hash that [validateFingerPrint] accepts carries the tag 0x01 and,
    after it, the expected digest in hexadecimal, up to case. *)
Lemma validateFingerPrint_true_inv `{PluginContract} `{Environment}
    (validationHash : Buffer) (self : Authentication) (i : Info) :
  validateFingerPrint validationHash self i = inr true ->
  exists rest,
    validationHash = 0x01 :: rest
    /\ sameIgnoringCase (toHexString (expectedDigest self i))
         (bufferToString AsciiEncoding rest).
Proof.
  intros Hvalid. destruct validationHash as [|tag rest]; [discriminate|].
  unfold validateFingerPrint in Hvalid.
  destruct (tag =? 0x01) eqn:Htag; [|discriminate].
  apply Z.eqb_eq in Htag. subst tag. cbn [negb] in Hvalid.
  destruct (isPlugin (plugin self)); [|discriminate].
  cbn [negb skipn] in Hvalid. exists rest. split; [reflexivity|].
  injection Hvalid as Heq. apply String.eqb_eq in Heq.
  unfold sameIgnoringCase, expectedDigest.
  rewrite toLowerCase_toHexString. exact Heq.
Qed.

Lemma nonempty_length_pos (b : Buffer) :
  b <> [] -> (0 <? Z.of_nat (List.length b)) = true.
Proof.
  intros Hne. destruct b; [contradiction|]. apply Z.ltb_lt. cbn [List.length]. lia.
Qed.

Lemma checkSelfSigned_hash `{PluginContract} `{Environment}
    (packet : Packet.t) (s : St) (validationHash : Buffer) :
  validationHashOf packet = Some (Some validationHash) ->
  validationHash <> [] ->
  isPlugin (plugin (this s)) = true ->
  checkSelfSigned (snd (afterStatus packet)) s
    = if negb (permitHash (plugin (this s)))
         || negb (truthy (password (cmdParam_opts (this s))))
         || isEmptyString (password (cmdParam_opts (this s)))
      then (Returned,
            throwNewError selfSignedNoPwdMessage true "08000"
              ER_SELF_SIGNED_NO_PWD s)
      else match validateFingerPrint validationHash (this s) (info s) with
           | inl e => (Threw e, s)
           | inr true => (Returned, emit SuccessEnd s)
           | inr false => selfSigned s
           end.
Proof.
  intros Hhash Hne Hplugin. unfold validationHashOf in Hhash.
  unfold checkSelfSigned.
  destruct (Packet.remaining (Packet.skip 2 (snd (afterStatus packet))));
    [|discriminate].
  assert (Hread : fst (Packet.readBufferLengthEncoded
                         (Packet.skip 2 (snd (afterStatus packet))))
                  = Some validationHash) by congruence.
  rewrite Hread, (nonempty_length_pos _ Hne), Hplugin. reflexivity.
Qed.

(** C8: in the self-signed special case of an OK packet
    ([requireValidCert] and [selfSignedCertificate] both set) with a
    non-empty validation hash, if the active plugin does not permit a hash,
    or the configured password is absent or the empty string, the handshake
    fails fatally with the self-signed-no-secret error
    (ER_SELF_SIGNED_NO_PWD, SQLSTATE 08000); when the plugin permits a hash,
    a password is configured and the digest does not match, it fails with
    ER_SELF_SIGNED instead, a different error code. *)
Theorem self_signed_no_secret `{PluginContract} `{Environment}
    (packet : Packet.t) (opts : Opts) (s : St) (validationHash : Buffer) :
  Packet.peek packet = Some 0x00 ->
  requireValidCert (info s) = true ->
  selfSignedCertificate (info s) = true ->
  validationHashOf packet = Some (Some validationHash) ->
  validationHash <> [] ->
  isPlugin (plugin (this s)) = true ->
  let s2 := okState packet s in
  let active := plugin (this s2) in
  let secret := password (cmdParam_opts (this s)) in
  (permitHash active = false \/ secret = None \/ secret = Some ""%string ->
     handshakeResult packet opts s
       = (Returned,
          emit (ThrowNewError
                  (mkSqlError selfSignedNoPwdMessage true "08000"
                     ER_SELF_SIGNED_NO_PWD)) s2))
  /\ (permitHash active = true ->
      (exists pw, secret = Some pw /\ pw <> ""%string) ->
      validateFingerPrint validationHash (this s2) (info s2) = inr false ->
      handshakeResult packet opts s
        = (Returned,
           emit (ThrowNewError
                   (mkSqlError "self-signed certificate" true "08000"
                      ER_SELF_SIGNED)) s2))
  /\ ER_SELF_SIGNED_NO_PWD <> ER_SELF_SIGNED.
Proof.
  intros Hpeek Hreq Hself Hhash Hne Hplugin s2 active secret.
  assert (Hres := handshakeResult_ok_self_signed packet opts s Hpeek Hreq Hself).
  rewrite (checkSelfSigned_hash packet (okState packet s) validationHash Hhash Hne)
    in Hres by (unfold okState; cbn; exact Hplugin).
  fold s2 in Hres. fold active in Hres.
  change (password (cmdParam_opts (this s2))) with secret in Hres.
  split; [|split; [|discriminate]].
  - intros Hcase. rewrite Hres.
    destruct Hcase as [Hno | [Hnone | Hempty]].
    + rewrite Hno. reflexivity.
    + rewrite Hnone. cbn. rewrite orb_true_r. reflexivity.
    + rewrite Hempty. cbn. rewrite orb_true_r. reflexivity.
  - intros Hyes (pw & Hpw & Hnonempty) Hmismatch. rewrite Hres.
    rewrite Hyes, Hpw. cbn [negb truthy isEmptyString orb].
    apply String.eqb_neq in Hnonempty. rewrite Hnonempty. cbn [negb].
    rewrite Hmismatch. reflexivity.
Qed.

(** C9: on an OK packet with [requireValidCert] and
    [selfSignedCertificate] both set, if no byte remains after the status
    field and the two-byte warning count, or if the length-encoded
    validation hash is empty, the handshake fails fatally with the
    self-signed certificate error (ER_SELF_SIGNED, SQLSTATE 08000); and
    whenever success is concluded in that case, the packet carried a
    non-empty validation hash that [validateFingerPrint] accepted: the
    tag 0x01 followed by the expected digest in hexadecimal, up to case. *)
Theorem self_signed_needs_matching_hash `{PluginContract} `{Environment}
    (packet : Packet.t) (opts : Opts) (s : St) :
  Packet.peek packet = Some 0x00 ->
  requireValidCert (info s) = true ->
  selfSignedCertificate (info s) = true ->
  let s2 := okState packet s in
  let failure :=
    (Returned,
     emit (ThrowNewError
             (mkSqlError "self-signed certificate" true "08000"
                ER_SELF_SIGNED)) s2) in
  (validationHashOf packet = None -> handshakeResult packet opts s = failure)
  /\ (validationHashOf packet = Some (Some []) ->
        handshakeResult packet opts s = failure)
  /\ (In SuccessEnd (newCalls s (snd (handshakeResult packet opts s))) ->
        exists validationHash,
          validationHashOf packet = Some (Some validationHash)
          /\ validationHash <> []
          /\ validateFingerPrint validationHash (this s2) (info s2) = inr true
          /\ exists rest,
               validationHash = 0x01 :: rest
               /\ sameIgnoringCase
                    (toHexString (expectedDigest (this s2) (info s2)))
                    (bufferToString AsciiEncoding rest)).
Proof.
  intros Hpeek Hreq Hself s2 failure.
  assert (Hres := handshakeResult_ok_self_signed packet opts s Hpeek Hreq Hself).
  fold s2 in Hres. rewrite Hres.
  assert (Hcalls : forall ev, newCalls s (emit ev s2) = [ev]).
  { intros ev. unfold newCalls, emit, s2, okState, setStatus, clearCallback,
      setPlugin. cbn [trace].
    rewrite skipn_app, skipn_all, Nat.sub_diag. reflexivity. }
  assert (Hnone : newCalls s s2 = []) by (apply newCalls_same_trace; reflexivity).
  unfold validationHashOf, checkSelfSigned.
  destruct (Packet.remaining (Packet.skip 2 (snd (afterStatus packet)))).
  2:{ repeat split; try discriminate.
      unfold selfSigned, throwNewError. cbn [snd]. rewrite Hcalls.
      intros [Hev | []]. discriminate. }
  destruct (fst (Packet.readBufferLengthEncoded _)) as [vh|].
  2:{ repeat split; try discriminate.
      cbn [snd]. rewrite Hnone. intros []. }
  split; [discriminate|]. split.
  - intros Hempty. injection Hempty as ->. reflexivity.
  - destruct vh as [|tag rest].
    { unfold selfSigned, throwNewError. cbn [snd List.length Z.of_nat Z.ltb Z.compare].
      rewrite Hcalls. intros [Hev | []]. discriminate. }
    rewrite (nonempty_length_pos (tag :: rest)) by discriminate.
    destruct (negb (isPlugin (plugin (this s2)))).
    { cbn [snd]. rewrite Hnone. intros []. }
    destruct (negb (permitHash (plugin (this s2)))
              || negb (truthy (password (cmdParam_opts (this s2))))
              || isEmptyString (password (cmdParam_opts (this s2)))).
    { unfold throwNewError. cbn [snd]. rewrite Hcalls.
      intros [Hev | []]. discriminate. }
    destruct (validateFingerPrint (tag :: rest) (this s2) (info s2))
      as [e | [|]] eqn:Hvalid.
    + cbn [snd]. rewrite Hnone. intros [].
    + intros _. exists (tag :: rest).
      split; [reflexivity | split; [discriminate | split; [exact Hvalid|]]].
      destruct (validateFingerPrint_true_inv _ _ _ Hvalid) as (rest' & Heq & Hsame).
      exists rest'. split; assumption.
    + unfold selfSigned, throwNewError. cbn [snd]. rewrite Hcalls.
      intros [Hev | []]. discriminate.
Qed.

(** Success over a trusted self-signed certificate: a non-empty hash that
    [validateFingerPrint] accepts, a plugin that permits a hash and a
    non-empty password conclude the handshake. *)
Lemma self_signed_success `{PluginContract} `{Environment}
    (packet : Packet.t) (opts : Opts) (s : St) (validationHash : Buffer)
    (pw : string) :
  Packet.peek packet = Some 0x00 ->
  requireValidCert (info s) = true ->
  selfSignedCertificate (info s) = true ->
  validationHashOf packet = Some (Some validationHash) ->
  validationHash <> [] ->
  isPlugin (plugin (this s)) = true ->
  permitHash (plugin (this (okState packet s))) = true ->
  password (cmdParam_opts (this s)) = Some pw ->
  pw <> ""%string ->
  validateFingerPrint validationHash (this (okState packet s))
    (info (okState packet s)) = inr true ->
  handshakeResult packet opts s = (Returned, emit SuccessEnd (okState packet s)).
Proof.
  intros Hpeek Hreq Hself Hhash Hne Hplugin Hpermit Hpw Hnonempty Hvalid.
  rewrite (handshakeResult_ok_self_signed packet opts s Hpeek Hreq Hself).
  rewrite (checkSelfSigned_hash packet _ validationHash Hhash Hne)
    by (unfold okState; cbn; exact Hplugin).
  rewrite Hpermit.
  change (password (cmdParam_opts (this (okState packet s))))
    with (password (cmdParam_opts (this s))).
  rewrite Hpw. cbn [negb truthy isEmptyString orb].
  apply String.eqb_neq in Hnonempty. rewrite Hnonempty. cbn [negb].
  rewrite Hvalid. reflexivity.
Qed.

(** ** The command on concrete packets *)

(** C6, at the mechanism name "toString": the name is not one of the six
    of the registry, yet [authenticationPlugins["toString"]] is the method
    inherited from [Object.prototype], so the guard [!pluginAuth] does not
    fire and [new pluginAuth(...)] throws a TypeError; [reject] receives
    that TypeError, not the fatal unsupported-mechanism error (SQLSTATE
    08004) naming the mechanism. *)
Example auth_switch_inherited_name :
  let packet := authSwitchPacket "toString" [1; 2; 3] in
  let s := initialState sampleOpts (sampleInfo PLUGIN_AUTH false false) in
  let detached := mkPlugin Handshake 0 0 [] None in
  readAuthSwitchRequest packet (info s) = ("toString"%string, [1; 2; 3])
  /\ assoc registry "toString" = None
  /\ handshakeResult packet sampleOpts s
     = (Returned,
        mkSt (mkAuthentication detached 1 0 sampleOpts) (info s)
          [PluginEnd initialPlugin;
           Reject (TypeError "pluginAuth is not a constructor")])
  /\ (forall e, In (Reject (SqlErr e))
                  (trace (snd (handshakeResult packet sampleOpts s))) -> False).
Proof.
  cbv zeta. repeat split; try reflexivity.
  intros e Hin. vm_compute in Hin.
  destruct Hin as [Hin | [Hin | []]]; discriminate.
Qed.

(** The name "constructor" goes further: [new Object(packSeq, ...)] yields
    an object that takes the plugin slot and has no [start]. *)
Example auth_switch_constructor_name :
  let packet := authSwitchPacket "constructor" [] in
  let s := initialState sampleOpts (sampleInfo PLUGIN_AUTH false false) in
  handshakeResult packet sampleOpts s
  = (Returned,
     mkSt (mkAuthentication (mkPlugin BoxedObject 0 0 [] None) 1 0 sampleOpts)
       (info s)
       [PluginEnd initialPlugin;
        Reject (TypeError "this.plugin.start is not a function")]).
Proof. reflexivity. Qed.

(** Scenario C: a switch to "mysql_clear_password" with the challenge
    [1, 2, 3] builds the clear-password plugin with that challenge and
    starts it, after the previous plugin was told of its end. *)
Example auth_switch_clear_password :
  let packet := authSwitchPacket "mysql_clear_password" [1; 2; 3] in
  let s := initialState sampleOpts (sampleInfo PLUGIN_AUTH false false) in
  let built := mkPlugin ClearPasswordAuth 0 0 [1; 2; 3] (Some ClassMethod) in
  handshakeResult packet sampleOpts s
  = (Returned,
     mkSt (mkAuthentication built 1 0 sampleOpts) (info s)
       [PluginEnd initialPlugin; PluginStart built]).
Proof. reflexivity. Qed.

(** The legacy request ends in the unsupported-mechanism error: the name
    the dispatcher makes up is in no registry. *)
Example auth_switch_legacy :
  let s := initialState sampleOpts (sampleInfo PLUGIN_AUTH false false) in
  newCalls s (snd (handshakeResult [0xfe] sampleOpts s))
  = [PluginEnd initialPlugin;
     Reject (SqlErr (mkSqlError
       "Client does not support authentication protocol 'mysql_old_password' requested by server."
       true "08004" ER_AUTHENTICATION_PLUGIN_NOT_SUPPORTED))].
Proof. reflexivity. Qed.

(** Without plugin-auth the marker stays in the name: the ASCII decoding
    turns the byte 0xFE into a tilde, and the registry does not know the
    result. *)
Example auth_switch_without_plugin_auth :
  let packet := authSwitchPacket "mysql_native_password" [] in
  let s := initialState sampleOpts (sampleInfo 0 false false) in
  fst (readAuthSwitchRequest packet (info s)) = "~mysql_native_password"%string
  /\ newCalls s (snd (handshakeResult packet sampleOpts s))
     = [PluginEnd initialPlugin;
        Reject (SqlErr (mkSqlError
          "Client does not support authentication protocol '~mysql_native_password' requested by server."
          true "08004" ER_AUTHENTICATION_PLUGIN_NOT_SUPPORTED))].
Proof. split; reflexivity. Qed.

(** A validation hash that matches, sent in capitals, concludes the
    handshake over a trusted self-signed certificate. *)
Example ok_self_signed_matching_hash :
  let packet := okPacket (65 :: sampleValidationHash 0x01) in
  let s := initialState sampleOpts (sampleInfo PLUGIN_AUTH true true) in
  toHexString (expectedDigest (this s) (info s))
    = "c40bc2e9f24cfe702268ff06b81a4fc94af2f6f582c403d87cd0f0d2c3c8f926"%string
  /\ validationHashOf packet = Some (Some (sampleValidationHash 0x01))
  /\ newCalls s (snd (handshakeResult packet sampleOpts s)) = [SuccessEnd].
Proof. cbv zeta. split; [|split]; vm_compute; reflexivity. Qed.

(** Scenario D: the same hash under another tag makes the assertion fail;
    the AssertionError leaves [handshakeResult] and nothing is called. *)
Example ok_self_signed_wrong_tag :
  let packet := okPacket (65 :: sampleValidationHash 0x02) in
  let s := initialState sampleOpts (sampleInfo PLUGIN_AUTH true true) in
  fst (handshakeResult packet sampleOpts s) = Threw (AssertionError 0x02 0x01)
  /\ newCalls s (snd (handshakeResult packet sampleOpts s)) = [].
Proof. cbv zeta. split; vm_compute; reflexivity. Qed.

(** An unexpected marker. *)
Example unexpected_marker :
  let s := initialState sampleOpts (sampleInfo PLUGIN_AUTH false false) in
  newCalls s (snd (handshakeResult [0x01; 0x00] sampleOpts s))
  = [ThrowNewError (mkSqlError
       "Unexpected type of packet during handshake phase : 1"
       true "42000" ER_AUTHENTICATION_BAD_PACKET)].
Proof. reflexivity. Qed.

(** ** The theorems at concrete inputs *)

(** Scenario B: an ERR_Packet with SQLSTATE 28000, which the parser does not
    mark fatal, reaches the plugin's [throwError] with the fatal flag set. *)
Lemma handshakeResult_err_packet_witness :
  let s := initialState sampleOpts (sampleInfo PLUGIN_AUTH false false) in
  let detached := mkPlugin Handshake 0 0 [] None in
  isPlugin (plugin (this s)) = true
  /\ fatal (readError (info s) errPacket) = false
  /\ handshakeResult errPacket sampleOpts s
     = (Returned,
        mkSt (mkAuthentication detached 1 0 sampleOpts) (info s)
          [PluginThrowError detached
             (mkSqlError "Access denied" true "28000" (ServerErrno 1045))]).
Proof.
  cbv zeta. split; [reflexivity | split; [reflexivity|]].
  exact (proj1 (@handshakeResult_err_packet samplePlugins sampleEnvironment
                  (tl errPacket) sampleOpts
                  (initialState sampleOpts (sampleInfo PLUGIN_AUTH false false))
                  eq_refl)).
Defined.

(** Scenario A: the OK_Packet [0x00, 0, 0, status = 0x0002]. *)
Lemma handshakeResult_ok_packet_witness :
  let s := initialState sampleOpts (sampleInfo PLUGIN_AUTH false false) in
  0 <= 0 < 2 ^ 64
  /\ 0 <= 2 < 256
  /\ 0 <= 0 < 256
  /\ requireValidCert (info s) && selfSignedCertificate (info s) = false
  /\ handshakeResult [0x00; 0; 0; 0x02; 0x00] sampleOpts s
     = (Returned,
        mkSt (mkAuthentication (mkPlugin Handshake 0 0 [] None) 1 0 sampleOpts)
          (mkInfo 2 false false PLUGIN_AUTH sampleSeed (tlsFingerprint (info s)))
          [SuccessEnd]).
Proof.
  cbv zeta.
  assert (H0 : 0 <= 0 < 2 ^ 64) by (split; [lia | reflexivity]).
  assert (H2 : 0 <= 2 < 256) by lia.
  assert (H3 : 0 <= 0 < 256) by lia.
  split; [exact H0 | split; [exact H2 | split; [exact H3 | split; [reflexivity|]]]].
  exact (proj1 (@handshakeResult_ok_packet samplePlugins sampleEnvironment
                  0 0 2 0 [] sampleOpts
                  (initialState sampleOpts (sampleInfo PLUGIN_AUTH false false))
                  H0 H0 H2 H3 eq_refl)).
Defined.

Lemma validateFingerPrint_sha256_witness :
  let s := initialState sampleOpts (sampleInfo PLUGIN_AUTH true true) in
  isPlugin (plugin (this s)) = true
  /\ exists b : bool,
       validateFingerPrint (sampleValidationHash 0x01) (this s) (info s) = inr b
       /\ (b = true <->
           sameIgnoringCase (toHexString (expectedDigest (this s) (info s)))
             (bufferToString AsciiEncoding (tl (sampleValidationHash 0x01)))).
Proof.
  cbv zeta. split; [reflexivity|].
  exact (@validateFingerPrint_sha256 samplePlugins sampleEnvironment
           (tl (sampleValidationHash 0x01))
           (this (initialState sampleOpts (sampleInfo PLUGIN_AUTH true true)))
           (sampleInfo PLUGIN_AUTH true true) eq_refl).
Defined.

Lemma validateFingerPrint_tag_assertion_witness :
  let s := initialState sampleOpts (sampleInfo PLUGIN_AUTH true true) in
  0x02 <> 0x01
  /\ validateFingerPrint (sampleValidationHash 0x02) (this s) (info s)
     = inl (AssertionError 0x02 0x01).
Proof.
  cbv zeta.
  assert (Htag : 0x02 <> 0x01) by discriminate.
  split; [exact Htag|].
  exact (proj1 (@validateFingerPrint_tag_assertion samplePlugins sampleEnvironment
                  (this (initialState sampleOpts (sampleInfo PLUGIN_AUTH true true)))
                  (sampleInfo PLUGIN_AUTH true true))
           0x02 (tl (sampleValidationHash 0x02)) Htag).
Defined.

(** The server asks for "dialog" while only "mysql_native_password" and
    "client_ed25519" are permitted. *)
Lemma dispatch_mechanism_not_permitted_witness :
  let allowed := ["mysql_native_password"; "client_ed25519"]%string in
  let opts := mkOpts (Some allowed) (Some "secret"%string) in
  let packet := authSwitchPacket "dialog" [1; 2; 3] in
  let s := initialState opts (sampleInfo PLUGIN_AUTH false false) in
  includes allowed (fst (readAuthSwitchRequest packet (info s))) = false
  /\ handshakeResult packet opts s
     = (Returned,
        mkSt (this s) (info s)
          [ThrowNewError
             (mkSqlError
                "Unsupported authentication plugin dialog. Authorized plugin: mysql_native_password,client_ed25519"
                true "42000" ER_NOT_SUPPORTED_AUTH_PLUGIN)]).
Proof.
  cbv zeta. split; [reflexivity|].
  exact (proj1 (@dispatch_mechanism_not_permitted samplePlugins sampleEnvironment
                  (tl (authSwitchPacket "dialog" [1; 2; 3]))
                  ["mysql_native_password"; "client_ed25519"]%string
                  (Some "secret"%string)
                  (initialState
                     (mkOpts (Some ["mysql_native_password"; "client_ed25519"]%string)
                        (Some "secret"%string))
                     (sampleInfo PLUGIN_AUTH false false))
                  eq_refl)).
Defined.

Lemma legacy_auth_switch_request_witness :
  let i := sampleInfo PLUGIN_AUTH false false in
  Z.land (clientCapabilities i) PLUGIN_AUTH <> 0
  /\ Packet.peek [0xfe] = Some 0xfe
  /\ Packet.remaining (Packet.skip 1 [0xfe]) = false
  /\ readAuthSwitchRequest [0xfe] i
     = ("mysql_old_password"%string, [1; 2; 3; 4; 5; 6; 7; 8]).
Proof.
  cbv zeta.
  assert (Hcaps : Z.land (clientCapabilities (sampleInfo PLUGIN_AUTH false false))
                    PLUGIN_AUTH <> 0) by discriminate.
  split; [exact Hcaps | split; [reflexivity | split; [reflexivity|]]].
  exact (proj1 (@legacy_auth_switch_request sampleEnvironment [0xfe]
                  (sampleInfo PLUGIN_AUTH false false) Hcaps eq_refl eq_refl)).
Defined.

(** No password is configured. *)
Lemma self_signed_no_secret_witness :
  let opts := mkOpts None None in
  let packet := okPacket (65 :: sampleValidationHash 0x01) in
  let s := initialState opts (sampleInfo PLUGIN_AUTH true true) in
  Packet.peek packet = Some 0x00
  /\ requireValidCert (info s) = true
  /\ selfSignedCertificate (info s) = true
  /\ validationHashOf packet = Some (Some (sampleValidationHash 0x01))
  /\ sampleValidationHash 0x01 <> []
  /\ isPlugin (plugin (this s)) = true
  /\ password (cmdParam_opts (this s)) = None
  /\ newCalls s (snd (handshakeResult packet opts s))
     = [ThrowNewError
          (mkSqlError selfSignedNoPwdMessage true "08000" ER_SELF_SIGNED_NO_PWD)].
Proof.
  cbv zeta.
  assert (Hne : sampleValidationHash 0x01 <> []) by discriminate.
  repeat (split; [first [reflexivity | exact Hne] |]).
  rewrite (proj1 (@self_signed_no_secret samplePlugins sampleEnvironment
                    (okPacket (65 :: sampleValidationHash 0x01)) (mkOpts None None)
                    (initialState (mkOpts None None) (sampleInfo PLUGIN_AUTH true true))
                    (sampleValidationHash 0x01)
                    eq_refl eq_refl eq_refl eq_refl Hne eq_refl)
             (or_intror (or_introl eq_refl))).
  reflexivity.
Defined.

(** The OK_Packet ends with the warning count. *)
Lemma self_signed_needs_matching_hash_witness :
  let packet := okPacket [] in
  let s := initialState sampleOpts (sampleInfo PLUGIN_AUTH true true) in
  Packet.peek packet = Some 0x00
  /\ requireValidCert (info s) = true
  /\ selfSignedCertificate (info s) = true
  /\ validationHashOf packet = None
  /\ newCalls s (snd (handshakeResult packet sampleOpts s))
     = [ThrowNewError
          (mkSqlError "self-signed certificate" true "08000" ER_SELF_SIGNED)].
Proof.
  cbv zeta.
  repeat (split; [reflexivity |]).
  rewrite (proj1 (@self_signed_needs_matching_hash samplePlugins sampleEnvironment
                    (okPacket []) sampleOpts
                    (initialState sampleOpts (sampleInfo PLUGIN_AUTH true true))
                    eq_refl eq_refl eq_refl)
             eq_refl).
  reflexivity.
Defined.

(** Node's 'ascii' decoding clears the high bit of every byte: the marker
    0xFE becomes a tilde. *)
Lemma auth_switch_name_starts_with_decoded_marker_witness :
  let i := sampleInfo 0 false false in
  let rest := bytesOf "mysql_native_password" ++ [0; 1; 2; 3] in
  (forall bytes,
     bufferToString AsciiEncoding (0xfe :: bytes)
     = String "~"%char (bufferToString AsciiEncoding bytes))
  /\ Z.land (clientCapabilities i) PLUGIN_AUTH = 0
  /\ readAuthSwitchRequest (0xfe :: rest) i
     = ("~mysql_native_password"%string, [1; 2; 3]).
Proof.
  cbv zeta.
  assert (Hmarker : forall bytes,
            bufferToString AsciiEncoding (0xfe :: bytes)
            = String "~"%char (bufferToString AsciiEncoding bytes))
    by (intros bytes; reflexivity).
  split; [exact Hmarker | split; [reflexivity|]].
  exact (proj1 (@auth_switch_name_starts_with_decoded_marker sampleEnvironment
                  "~"%char (bytesOf "mysql_native_password" ++ [0; 1; 2; 3])
                  (sampleInfo 0 false false) Hmarker)
           eq_refl).
Defined.

(** C10 as it was worded, with the byte 0xFE itself as the first character
    of the name, fails on the request for "mysql_native_password" received
    without plugin-auth, under the 'ascii' decoding that the call asks for:
    the parsed name is "~mysql_native_password", and its first character is
    the tilde (0x7E), not the character 0xFE. *)
Lemma auth_switch_name_first_character_counterexample :
  let i := sampleInfo 0 false false in
  let packet := authSwitchPacket "mysql_native_password" [1; 2; 3] in
  Z.land (clientCapabilities i) PLUGIN_AUTH = 0
  /\ fst (readAuthSwitchRequest packet i) = "~mysql_native_password"%string
  /\ ~ (exists tail,
          fst (readAuthSwitchRequest packet i)
          = String (ascii_of_nat 254) tail).
Proof.
  cbv zeta. split; [reflexivity | split; [reflexivity|]].
  intros [tail Hname]. vm_compute in Hname. discriminate.
Qed.

(** ** Further properties of the command *)

(** *** How one packet is handled *)

Lemma registry_classes_are_plugins (name : string) (c : PluginClass) :
  assoc registry name = Some c ->
  isPlugin (mkPlugin c 0 0 [] None) = true /\ c <> Handshake.
Proof.
  unfold registry. cbn [assoc].
  repeat match goal with
         | |- context [String.eqb ?a ?b] => destruct (String.eqb a b)
         end;
    intros Hc; inversion Hc; subst; split; (reflexivity || discriminate).
Qed.

Lemma isPlugin_built (name : string) (c : PluginClass) (old : Plugin)
    (data : Buffer) :
  assoc registry name = Some c -> isPlugin (built c old data) = true.
Proof.
  intros Hc. destruct (registry_classes_are_plugins name c Hc) as [Hp _].
  exact Hp.
Qed.

(** The AuthSwitchRequest branch, by the allow-list. *)
Lemma dispatch_by_allow_list `{PluginContract} `{Environment}
    (rest : Buffer) (opts : Opts) (s : St) :
  let packet := 0xfe :: rest in
  handshakeResult packet opts s
  = (Returned,
     if permitted opts (requestedName packet s)
     then switchPlugin (requestedName packet s) (challenge packet s) s
     else emit (ThrowNewError (notPermittedError (requestedName packet s) opts)) s).
Proof.
  intros packet. unfold packet at 1. rewrite handshakeResult_auth_switch.
  fold packet. unfold dispatchAuthSwitchRequest, requestedName, challenge,
    permitted, notPermittedError.
  destruct (readAuthSwitchRequest packet (info s)) as [name data].
  cbn [fst snd].
  destruct (restrictedAuth opts) as [allowed|]; [|reflexivity].
  destruct (includes allowed name); reflexivity.
Qed.

(** What [switchPlugin] does for a name of the registry. *)
Lemma switchPlugin_registered `{PluginContract}
    (name : string) (data : Buffer) (s : St) (c : PluginClass) :
  isPlugin (plugin (this s)) = true ->
  assoc registry name = Some c ->
  switchPlugin name data s
  = let p := built c (plugin (this s)) data in
    let s4 := emit (PluginStart p) (setPlugin p (detached s)) in
    match start p with
    | None => s4
    | Some err => emit (Reject err) s4
    end.
Proof.
  intros Hold Hc. unfold switchPlugin. rewrite Hold. cbn [negb].
  unfold pluginHandler, authenticationPlugins. rewrite Hc.
  change (mkPlugin c (sequenceNo (plugin (this s)))
            (compressSequenceNo (plugin (this s))) data (Some ClassMethod))
    with (built c (plugin (this s)) data).
  rewrite (isPlugin_built name c _ _ Hc). reflexivity.
Qed.

Lemma Object_prototype_values (name : string) (v : Property) :
  assoc Object_prototype name = Some v ->
  v = ObjectConstructor \/ v = NotAConstructor.
Proof.
  unfold Object_prototype. cbn [assoc].
  repeat match goal with
         | |- context [String.eqb ?a ?b] => destruct (String.eqb a b)
         end;
    intros Hv; inversion Hv; subst; auto.
Qed.

(** The classification of [handshakeResult]: it ends in one of the ways of
    [Reaction]. *)
Lemma handshakeResult_reaction `{PluginContract} `{Environment}
    (packet : Packet.t) (opts : Opts) (s : St) :
  Reaction packet opts s (fst (handshakeResult packet opts s))
    (snd (handshakeResult packet opts s)).
Proof.
  destruct packet as [|m rest].
  { apply Unexpected. intros m Hm. discriminate. }
  destruct (Z.eq_dec m 0xfe) as [-> | Hfe].
  { (* AuthSwitchRequest *)
    rewrite dispatch_by_allow_list. cbn [fst snd].
    destruct (permitted opts (requestedName (0xfe :: rest) s)) eqn:Hperm;
      [|apply NotPermitted; [reflexivity | exact Hperm]].
    destruct (isPlugin (plugin (this s))) eqn:Hold.
    2:{ unfold switchPlugin. rewrite Hold. cbn [negb].
        apply NoPluginToEnd; [reflexivity | exact Hperm | exact Hold]. }
    destruct (assoc registry (requestedName (0xfe :: rest) s)) as [c|] eqn:Hreg.
    - rewrite (switchPlugin_registered _ _ _ c Hold Hreg). cbv zeta.
      destruct (start _) as [e|] eqn:Hstart.
      + apply StartThrew; assumption || reflexivity.
      + apply Switched; assumption || reflexivity.
    - unfold switchPlugin. rewrite Hold. cbn [negb].
      unfold pluginHandler, authenticationPlugins. rewrite Hreg.
      fold (detached s).
      destruct (assoc Object_prototype _) as [v|] eqn:Hproto.
      + destruct (Object_prototype_values _ _ Hproto) as [Hv | Hv]; subst v.
        * cbn [isPlugin cls negb].
          apply BuiltNoPlugin; assumption || reflexivity.
        * apply NotBuilt; assumption || reflexivity.
      + apply NotBuilt; assumption || reflexivity. }
  destruct (Z.eq_dec m 0x00) as [-> | H00].
  { (* OK_Packet *)
    destruct (requireValidCert (info s) && selfSignedCertificate (info s))
      eqn:Hflags.
    - apply andb_true_iff in Hflags. destruct Hflags as [Hreq Hself].
      rewrite (handshakeResult_ok_self_signed (0x00 :: rest) opts s eq_refl
                 Hreq Hself).
      unfold checkSelfSigned, selfSigned, throwNewError.
      repeat match goal with
             | |- context [if ?b then _ else _] => destruct b
             | |- context [match ?x with _ => _ end] => destruct x
             end;
        cbn [fst snd];
        first [ apply CertificateCheckThrew; assumption || reflexivity
              | apply Succeeded; reflexivity
              | apply CertificateRefused; auto ].
    - assert (Hres : handshakeResult (0x00 :: rest) opts s
                     = (Returned, emit SuccessEnd (okState (0x00 :: rest) s))).
      { unfold handshakeResult. cbn [Packet.peek hd_error].
        change (0x00 =? 0xfe) with false. change (0x00 =? 0x00) with true.
        cbv iota. unfold okState, afterStatus.
        destruct (Packet.readUInt16 _) as [v p4]. cbn [fst snd].
        cbn [setStatus clearCallback setPlugin info requireValidCert
             selfSignedCertificate this].
        rewrite Hflags. reflexivity. }
      rewrite Hres. apply Succeeded. reflexivity. }
  destruct (Z.eq_dec m 0xff) as [-> | Hff].
  { (* ERR_Packet *)
    unfold handshakeResult. cbn [Packet.peek hd_error].
    change (0xff =? 0xfe) with false. change (0xff =? 0x00) with false.
    change (0xff =? 0xff) with true. cbv iota.
    rewrite clearCallback_isPlugin.
    destruct (isPlugin (plugin (this s))) eqn:Hold; cbn [negb fst snd].
    - exact (ServerError (0xff :: rest) opts s eq_refl Hold).
    - apply ServerErrorThrew; [reflexivity | exact Hold]. }
  unfold handshakeResult. cbn [Packet.peek hd_error].
  apply Z.eqb_neq in Hfe, H00, Hff. rewrite Hfe, H00, Hff.
  apply Unexpected. intros m' Hm'. injection Hm' as <-.
  apply Z.eqb_neq in Hfe, H00, Hff. auto.
Qed.

Lemma newCalls_app (s s' : St) (new : list Event) :
  trace s' = trace s ++ new -> newCalls s s' = new.
Proof.
  intros E. unfold newCalls. rewrite E, skipn_app, skipn_all, Nat.sub_diag.
  reflexivity.
Qed.

Ltac calls :=
  first
    [ apply newCalls_same_trace; reflexivity
    | apply newCalls_app;
      cbv [detached okState emit setPlugin clearCallback setStatus trace];
      rewrite <- ?app_assoc; reflexivity ].

(** *** Unexpected packets *)

(** X1: a packet whose first byte is none of 0x00, 0xFE, 0xFF, and the
    empty packet, make [handshakeResult] fail with the fatal bad-packet
    error (SQLSTATE 42000) whose message ends with the marker in decimal, or
    with "undefined"; the command and the session are left as they were: the
    active plugin keeps its packet callback. *)
Theorem unexpected_packet_rejected `{PluginContract} `{Environment}
    (packet : Packet.t) (opts : Opts) (s : St) :
  (forall m, Packet.peek packet = Some m -> m <> 0xfe /\ m <> 0x00 /\ m <> 0xff) ->
  let s' := snd (handshakeResult packet opts s) in
  let err :=
    mkSqlError
      ("Unexpected type of packet during handshake phase : "
         ++ match packet with
            | [] => "undefined"
            | m :: _ => numberToString m
            end)%string
      true "42000" ER_AUTHENTICATION_BAD_PACKET in
  fst (handshakeResult packet opts s) = Returned
  /\ this s' = this s
  /\ info s' = info s
  /\ newCalls s s' = [ThrowNewError err].
Proof.
  intros Hmarker s' err.
  assert (Hres : handshakeResult packet opts s
                 = (Returned, emit (ThrowNewError err) s)).
  { destruct packet as [|m rest]; [reflexivity|].
    destruct (Hmarker m eq_refl) as (Hfe & H00 & Hff).
    unfold handshakeResult. cbn [Packet.peek hd_error].
    apply Z.eqb_neq in Hfe, H00, Hff. rewrite Hfe, H00, Hff. reflexivity. }
  subst s'. rewrite Hres. cbn [fst snd].
  repeat split; try reflexivity. calls.
Qed.

(** *** Mechanism switch *)

(** X2: an AuthSwitchRequest whose mechanism name is a key of the registry
    and passes the allow-list: the previous plugin is told of its end once,
    the plugin of the registered class is built with the previous plugin's
    sequence numbers and the challenge of the packet, takes the slot with
    its packet callback set, and is started; when [start] returns, the end
    and the start are the only calls, in that order, and the session and
    the options are unchanged. *)
Theorem auth_switch_starts_plugin `{PluginContract} `{Environment}
    (rest : Buffer) (opts : Opts) (s : St) (c : PluginClass) :
  let packet := 0xfe :: rest in
  let old := plugin (this s) in
  let new := mkPlugin c (sequenceNo old) (compressSequenceNo old)
               (challenge packet s) (Some ClassMethod) in
  isPlugin old = true ->
  permitted opts (requestedName packet s) = true ->
  assoc registry (requestedName packet s) = Some c ->
  start new = None ->
  let s' := snd (handshakeResult packet opts s) in
  fst (handshakeResult packet opts s) = Returned
  /\ plugin (this s') = new
  /\ newCalls s s' = [PluginEnd old; PluginStart new]
  /\ info s' = info s
  /\ cmdParam_opts (this s') = cmdParam_opts (this s).
Proof.
  intros packet old new Hold Hperm Hreg Hstart s'.
  subst s' packet. rewrite dispatch_by_allow_list.
  rewrite Hperm, (switchPlugin_registered _ _ _ c Hold Hreg).
  cbv zeta. fold old. change (built c old (challenge (0xfe :: rest) s)) with new.
  rewrite Hstart. cbn [fst snd]. repeat split; try reflexivity. calls.
Qed.

(** X3: when the [start] of the new plugin throws, the error goes to
    [reject] after the start, and the switch is not undone: the new plugin
    stays in the slot with its callback set; the calls are the end of the
    previous plugin, the start of the new one and [reject], in that
    order. *)
Theorem auth_switch_start_throws `{PluginContract} `{Environment}
    (rest : Buffer) (opts : Opts) (s : St) (c : PluginClass) (e : JsError) :
  let packet := 0xfe :: rest in
  let old := plugin (this s) in
  let new := mkPlugin c (sequenceNo old) (compressSequenceNo old)
               (challenge packet s) (Some ClassMethod) in
  isPlugin old = true ->
  permitted opts (requestedName packet s) = true ->
  assoc registry (requestedName packet s) = Some c ->
  start new = Some e ->
  let s' := snd (handshakeResult packet opts s) in
  fst (handshakeResult packet opts s) = Returned
  /\ plugin (this s') = new
  /\ newCalls s s' = [PluginEnd old; PluginStart new; Reject e].
Proof.
  intros packet old new Hold Hperm Hreg Hstart s'.
  subst s' packet. rewrite dispatch_by_allow_list.
  rewrite Hperm, (switchPlugin_registered _ _ _ c Hold Hreg).
  cbv zeta. fold old. change (built c old (challenge (0xfe :: rest) s)) with new.
  rewrite Hstart. cbn [fst snd]. repeat split; try reflexivity. calls.
Qed.

Lemma legacy_name `{Environment} (s : St) :
  Z.land (clientCapabilities (info s)) PLUGIN_AUTH <> 0 ->
  requestedName [0xfe] s = "mysql_old_password"%string.
Proof.
  intros Hcaps. unfold requestedName, readAuthSwitchRequest.
  apply Z.eqb_neq in Hcaps. rewrite Hcaps. reflexivity.
Qed.

(** X5: the legacy AuthSwitchRequest (the header alone, plugin-auth
    negotiated) never switches: the name "mysql_old_password" is in no
    registry, so the slot keeps a plugin of the same class, no plugin is
    started, and the handshake fails, with the not-permitted error when an
    allow-list lacks the name, else, after the previous plugin is ended and
    detached, with the unsupported-mechanism error (SQLSTATE 08004). *)
Theorem legacy_switch_never_builds `{PluginContract} `{Environment}
    (opts : Opts) (s : St) :
  Z.land (clientCapabilities (info s)) PLUGIN_AUTH <> 0 ->
  isPlugin (plugin (this s)) = true ->
  let old := plugin (this s) in
  let s' := snd (handshakeResult [0xfe] opts s) in
  cls (plugin (this s')) = cls old
  /\ (forall p, ~ In (PluginStart p) (newCalls s s'))
  /\ (permitted opts "mysql_old_password" = true ->
      newCalls s s'
      = [PluginEnd old; Reject (SqlErr (unsupportedError "mysql_old_password"))]
      /\ onPacketReceive (plugin (this s')) = None)
  /\ (permitted opts "mysql_old_password" = false ->
      newCalls s s'
      = [ThrowNewError (notPermittedError "mysql_old_password" opts)]
      /\ plugin (this s') = old).
Proof.
  intros Hcaps Hold old s'. subst s'.
  rewrite dispatch_by_allow_list, (legacy_name s Hcaps).
  destruct (permitted opts "mysql_old_password") eqn:Hperm; cbn [snd].
  - assert (Hswitch : switchPlugin "mysql_old_password" (challenge [0xfe] s) s
              = emit (Reject (SqlErr (unsupportedError "mysql_old_password")))
                  (detached s)).
    { unfold switchPlugin. rewrite Hold. reflexivity. }
    rewrite Hswitch.
    assert (Hcalls : newCalls s
              (emit (Reject (SqlErr (unsupportedError "mysql_old_password")))
                 (detached s))
              = [PluginEnd old;
                 Reject (SqlErr (unsupportedError "mysql_old_password"))])
      by calls.
    rewrite Hcalls. repeat split; try reflexivity; try discriminate.
    intros p [Hin | [Hin | []]]; discriminate.
  - assert (Hcalls : newCalls s
              (emit (ThrowNewError (notPermittedError "mysql_old_password" opts)) s)
              = [ThrowNewError (notPermittedError "mysql_old_password" opts)])
      by calls.
    rewrite Hcalls. repeat split; try reflexivity; try discriminate.
    intros p [Hin | []]; discriminate.
Qed.

(** X6: an empty allow-list is an allow-list: it permits no mechanism, and
    every AuthSwitchRequest fails with the not-permitted error, whose list
    of authorized plugins is empty; no plugin is ended, built or started. *)
Theorem empty_allow_list_permits_nothing `{PluginContract} `{Environment}
    (rest : Buffer) (opts : Opts) (s : St) :
  restrictedAuth opts = Some [] ->
  let packet := 0xfe :: rest in
  let s' := snd (handshakeResult packet opts s) in
  let err :=
    mkSqlError
      ("Unsupported authentication plugin " ++ requestedName packet s
         ++ ". Authorized plugin: ")%string
      true "42000" ER_NOT_SUPPORTED_AUTH_PLUGIN in
  fst (handshakeResult packet opts s) = Returned
  /\ this s' = this s
  /\ newCalls s s' = [ThrowNewError err].
Proof.
  intros Hempty packet s' err. subst s' err packet.
  rewrite dispatch_by_allow_list.
  unfold permitted, notPermittedError. rewrite Hempty. cbn [includes fst snd].
  repeat split; try reflexivity. calls.
Qed.

(** *** What a packet can and cannot do *)

Ltac react R packet opts s :=
  pose proof (handshakeResult_reaction packet opts s) as R;
  destruct (handshakeResult packet opts s) as [? ?];
  cbn [fst snd] in *; destruct R.

(** X7: a plugin is started only by an AuthSwitchRequest whose mechanism
    name passes the allow-list and is a key of the registry: the started
    plugin has the class registered under that name, the challenge of the
    packet and the sequence numbers of the previous plugin, it is the one
    in the slot afterwards, and the previous plugin was ended first. *)
Theorem started_plugin_is_permitted `{PluginContract} `{Environment}
    (packet : Packet.t) (opts : Opts) (s : St) (p : Plugin) :
  let s' := snd (handshakeResult packet opts s) in
  In (PluginStart p) (newCalls s s') ->
  Packet.peek packet = Some 0xfe
  /\ permitted opts (requestedName packet s) = true
  /\ assoc registry (requestedName packet s) = Some (cls p)
  /\ pluginData p = challenge packet s
  /\ sequenceNo p = sequenceNo (plugin (this s))
  /\ compressSequenceNo p = compressSequenceNo (plugin (this s))
  /\ plugin (this s') = p
  /\ exists after, newCalls s s' = PluginEnd (plugin (this s)) :: PluginStart p :: after.
Proof.
  intros s'. subst s'. react R packet opts s; intros Hin.
  all: match type of Hin with
       | In _ (newCalls ?a ?b) =>
           let new := fresh "new" in
           let Hnew := fresh "Hnew" in
           evar (new : list Event);
           assert (Hnew : newCalls a b = new) by (subst new; calls);
           subst new; rewrite Hnew in *; clear Hnew
       end.
  all: cbn [In] in Hin.
  all: try (repeat (destruct Hin as [Hin | Hin]; [discriminate|]);
            contradiction).
  - destruct Hin as [Hin | [Hin | []]]; [discriminate|].
    injection Hin as <-.
    repeat split; try assumption; try reflexivity. eexists; reflexivity.
  - destruct Hin as [Hin | [Hin | [Hin | []]]]; try discriminate.
    injection Hin as <-.
    repeat split; try assumption; try reflexivity. eexists; reflexivity.
Qed.

(** X9: whatever the packet, [handshakeResult] leaves the options, the
    command's own sequence numbers and the session alone, but for the status
    of the session, which only an OK_Packet changes; it only adds calls to
    those already made, at most three. *)
Theorem handshakeResult_frame `{PluginContract} `{Environment}
    (packet : Packet.t) (opts : Opts) (s : St) :
  let s' := snd (handshakeResult packet opts s) in
  cmdParam_opts (this s') = cmdParam_opts (this s)
  /\ cmd_sequenceNo (this s') = cmd_sequenceNo (this s)
  /\ cmd_compressSequenceNo (this s') = cmd_compressSequenceNo (this s)
  /\ requireValidCert (info s') = requireValidCert (info s)
  /\ selfSignedCertificate (info s') = selfSignedCertificate (info s)
  /\ clientCapabilities (info s') = clientCapabilities (info s)
  /\ seed (info s') = seed (info s)
  /\ tlsFingerprint (info s') = tlsFingerprint (info s)
  /\ (status (info s') <> status (info s) -> Packet.peek packet = Some 0x00)
  /\ trace s' = trace s ++ newCalls s s'
  /\ (List.length (newCalls s s') <= 3)%nat.
Proof.
  intros s'. subst s'. react R packet opts s.
  all: match goal with
       | |- context [newCalls ?a ?b] =>
           let new := fresh "new" in
           let Hnew := fresh "Hnew" in
           evar (new : list Event);
           assert (Hnew : newCalls a b = new) by (subst new; calls);
           subst new; rewrite Hnew; clear Hnew
       end.
  all: repeat split; try reflexivity; try assumption.
  all: try (intros _; assumption).
  all: try (intros Hst; exfalso; apply Hst; reflexivity).
  all: try (rewrite app_nil_r; reflexivity).
  all: try (cbv [detached okState emit setPlugin clearCallback setStatus trace];
            rewrite <- ?app_assoc; reflexivity).
  all: cbn [List.length app]; lia.
Qed.

(** X10: one packet concludes the handshake at most once: among the calls
    it causes at most one is a success or an error handed to a failure path.
    Success comes from an OK_Packet alone, is then the only call, and the
    call returns. *)
Theorem at_most_one_conclusion `{PluginContract} `{Environment}
    (packet : Packet.t) (opts : Opts) (s : St) :
  let s' := snd (handshakeResult packet opts s) in
  (List.length (filter isConclusion (newCalls s s')) <= 1)%nat
  /\ (In SuccessEnd (newCalls s s') ->
      Packet.peek packet = Some 0x00
      /\ newCalls s s' = [SuccessEnd]
      /\ fst (handshakeResult packet opts s) = Returned).
Proof.
  intros s'. subst s'. react R packet opts s.
  all: match goal with
       | |- context [newCalls ?a ?b] =>
           let new := fresh "new" in
           let Hnew := fresh "Hnew" in
           evar (new : list Event);
           assert (Hnew : newCalls a b = new) by (subst new; calls);
           subst new; rewrite Hnew; clear Hnew
       end.
  all: split; [cbn; lia|].
  all: cbn [In]; intros Hin.
  all: try (repeat (destruct Hin as [Hin | Hin]; [discriminate|]);
            contradiction).
  repeat split; try reflexivity; assumption.
Qed.

(** X12: an OK_Packet and an ERR_Packet detach the active plugin whatever
    follows, also when the certificate check refuses or throws: the packet
    callback of the slot is null afterwards, the slot holds the same
    object otherwise, and a later packet handed to the command reaches no
    plugin. *)
Theorem terminal_packets_detach `{PluginContract} `{Environment}
    (packet : Packet.t) (opts : Opts) (s : St) :
  Packet.peek packet = Some 0x00 \/ Packet.peek packet = Some 0xff ->
  let s' := snd (handshakeResult packet opts s) in
  let old := plugin (this s) in
  plugin (this s')
  = mkPlugin (cls old) (sequenceNo old) (compressSequenceNo old)
      (pluginData old) None
  /\ (forall next, exists msg s'',
        Authentication_onPacketReceive next s' = (Threw (TypeError msg), s'')
        /\ newCalls s' s'' = []).
Proof.
  intros Hpeek s' old. subst s'.
  assert (Hslot : plugin (this (snd (handshakeResult packet opts s)))
                  = mkPlugin (cls old) (sequenceNo old) (compressSequenceNo old)
                      (pluginData old) None).
  { react R packet opts s; try reflexivity.
    all: exfalso; destruct Hpeek as [Hp | Hp].
    all: try congruence.
    all: destruct (H1 _ Hp) as (? & ? & ?); congruence. }
  split; [exact Hslot|].
  intros next.
  destruct (inert_plugin_receives_nothing next
              (snd (handshakeResult packet opts s))) as (msg & s'' & Hrun & Htrace).
  { rewrite Hslot. reflexivity. }
  exists msg, s''. split; [exact Hrun|].
  apply newCalls_same_trace. exact Htrace.
Qed.

(** *** Switch and reception together *)

(** X8: after a switch, the next packet handed to the command goes to the
    plugin that was built, which first receives the command's current
    sequence numbers; over the two packets the previous plugin is called
    once, for its end. *)
Theorem packets_go_to_new_plugin `{PluginContract} `{Environment}
    (rest next : Buffer) (opts : Opts) (s : St) (c : PluginClass) :
  let packet := 0xfe :: rest in
  let old := plugin (this s) in
  let new := mkPlugin c (sequenceNo old) (compressSequenceNo old)
               (challenge packet s) (Some ClassMethod) in
  let receiver := mkPlugin c (cmd_sequenceNo (this s))
                    (cmd_compressSequenceNo (this s))
                    (challenge packet s) (Some ClassMethod) in
  isPlugin old = true ->
  permitted opts (requestedName packet s) = true ->
  assoc registry (requestedName packet s) = Some c ->
  start new = None ->
  let s' := snd (handshakeResult packet opts s) in
  let s'' := snd (Authentication_onPacketReceive next s') in
  fst (Authentication_onPacketReceive next s') = Returned
  /\ plugin (this s'') = receiver
  /\ newCalls s s''
     = [PluginEnd old; PluginStart new; PluginOnPacket receiver next].
Proof.
  intros packet old new receiver Hold Hperm Hreg Hstart s' s''.
  subst s'' s' packet. rewrite dispatch_by_allow_list.
  rewrite Hperm, (switchPlugin_registered _ _ _ c Hold Hreg).
  cbv zeta. fold old. change (built c old (challenge (0xfe :: rest) s)) with new.
  rewrite Hstart. cbn [snd].
  unfold Authentication_onPacketReceive.
  cbn [emit setPlugin detached clearCallback this plugin onPacketReceive new
       fst snd cls pluginData cmd_sequenceNo cmd_compressSequenceNo].
  repeat split. calls.
Qed.

(** X15: the sequence numbers a new plugin starts from are those the
    command had when the packet was received: [onPacketReceive] copies them
    to the active plugin, and the switch copies them from there. *)
Theorem switch_uses_command_counters `{PluginContract} `{Environment}
    (first rest : Buffer) (opts : Opts) (s : St) (c : PluginClass) :
  let packet := 0xfe :: rest in
  isPlugin (plugin (this s)) = true ->
  permitted opts (requestedName packet s) = true ->
  assoc registry (requestedName packet s) = Some c ->
  let s1 := snd (Authentication_onPacketReceive first s) in
  let s' := snd (handshakeResult packet opts s1) in
  cls (plugin (this s')) = c
  /\ sequenceNo (plugin (this s')) = cmd_sequenceNo (this s)
  /\ compressSequenceNo (plugin (this s')) = cmd_compressSequenceNo (this s)
  /\ pluginData (plugin (this s')) = challenge packet s.
Proof.
  intros packet Hold Hperm Hreg s1 s'. subst s' packet.
  assert (Hinfo : info s1 = info s).
  { subst s1. unfold Authentication_onPacketReceive. cbn.
    destruct (onPacketReceive (plugin (this s))) as [[]|]; reflexivity. }
  assert (Hname : requestedName (0xfe :: rest) s1 = requestedName (0xfe :: rest) s)
    by (unfold requestedName; rewrite Hinfo; reflexivity).
  assert (Hdata : challenge (0xfe :: rest) s1 = challenge (0xfe :: rest) s)
    by (unfold challenge; rewrite Hinfo; reflexivity).
  assert (Hslot : plugin (this s1)
                  = mkPlugin (cls (plugin (this s))) (cmd_sequenceNo (this s))
                      (cmd_compressSequenceNo (this s))
                      (pluginData (plugin (this s)))
                      (onPacketReceive (plugin (this s)))).
  { subst s1. unfold Authentication_onPacketReceive. cbn.
    destruct (onPacketReceive (plugin (this s))) as [[]|]; reflexivity. }
  assert (Hold1 : isPlugin (plugin (this s1)) = true)
    by (rewrite Hslot; exact Hold).
  rewrite dispatch_by_allow_list, Hname, Hdata, Hperm.
  rewrite (switchPlugin_registered _ _ _ c Hold1 Hreg). cbv zeta.
  rewrite Hslot.
  destruct (start _); repeat split.
Qed.

(** *** The registry *)

Lemma registry_injective (n1 n2 : string) (c : PluginClass) :
  assoc registry n1 = Some c -> assoc registry n2 = Some c -> n1 = n2.
Proof.
  unfold registry. cbn [assoc].
  repeat match goal with
         | |- context [String.eqb ?a n1] =>
             let E := fresh "E" in
             destruct (String.eqb a n1) eqn:E;
             [apply String.eqb_eq in E|]
         end;
    repeat match goal with
           | |- context [String.eqb ?a n2] =>
               let E := fresh "E" in
               destruct (String.eqb a n2) eqn:E;
               [apply String.eqb_eq in E|]
           end;
    intros H1 H2; try discriminate; try congruence.
Qed.

(** X14: [pluginHandler] builds a plugin exactly for the six names of the
    registry: the plugin has the registered class, never that of the first
    plugin of the handshake, the sequence numbers and the data it is given,
    and its packet callback set; two names that build the same class are the
    same name; and a name that is no property of the registry object at all
    throws the fatal unsupported-mechanism error naming it. *)
Theorem pluginHandler_registry
    (pluginName : string) (packSeq compressPackSeq : Z) (data : Buffer) :
  (forall p,
     (pluginHandler pluginName packSeq compressPackSeq data = inr p
      /\ isPlugin p = true)
     <-> (exists c, assoc registry pluginName = Some c
                    /\ p = mkPlugin c packSeq compressPackSeq data
                           (Some ClassMethod)))
  /\ (forall p, pluginHandler pluginName packSeq compressPackSeq data = inr p ->
                cls p <> Handshake)
  /\ (forall other p q,
        pluginHandler pluginName packSeq compressPackSeq data = inr p ->
        pluginHandler other packSeq compressPackSeq data = inr q ->
        isPlugin p = true -> cls p = cls q -> pluginName = other)
  /\ (authenticationPlugins pluginName = None ->
      pluginHandler pluginName packSeq compressPackSeq data
      = inl (SqlErr (unsupportedError pluginName))).
Proof.
  assert (Hinv : forall name p,
            pluginHandler name packSeq compressPackSeq data = inr p ->
            (exists c, assoc registry name = Some c
                       /\ p = mkPlugin c packSeq compressPackSeq data
                              (Some ClassMethod))
            \/ (assoc registry name = None /\ cls p = BoxedObject)).
  { intros name p. unfold pluginHandler, authenticationPlugins.
    destruct (assoc registry name) as [c|] eqn:Hreg.
    - intros Hp. injection Hp as <-. left. eauto.
    - destruct (assoc Object_prototype name) as [[c | |]|] eqn:Hproto;
        intros Hp; try discriminate.
      + destruct (Object_prototype_values _ _ Hproto); discriminate.
      + injection Hp as <-. right. split; reflexivity. }
  split; [|split; [|split]].
  - intros p. split.
    + intros [Hp Hplugin]. destruct (Hinv _ _ Hp) as [Hc | [_ Hbox]]; [exact Hc|].
      unfold isPlugin in Hplugin. rewrite Hbox in Hplugin. discriminate.
    + intros (c & Hreg & ->). unfold pluginHandler, authenticationPlugins.
      rewrite Hreg. split; [reflexivity|].
      exact (isPlugin_built pluginName c
               (mkPlugin c packSeq compressPackSeq data None) data Hreg).
  - intros p Hp. destruct (Hinv _ _ Hp) as [(c & Hreg & ->) | [_ Hbox]].
    + apply (registry_classes_are_plugins pluginName c Hreg).
    + rewrite Hbox. discriminate.
  - intros other p q Hp Hq Hplugin Hcls.
    destruct (Hinv _ _ Hp) as [(c & Hreg & ->) | [_ Hbox]].
    2:{ unfold isPlugin in Hplugin. rewrite Hbox in Hplugin. discriminate. }
    destruct (Hinv _ _ Hq) as [(c' & Hreg' & ->) | [_ Hbox]].
    + cbn [cls] in Hcls. subst c'. exact (registry_injective _ _ _ Hreg Hreg').
    + cbn [cls] in Hcls. rewrite Hbox in Hcls. subst c.
      destruct (registry_classes_are_plugins _ _ Hreg) as [Hp' _]. discriminate.
  - intros Hnone. unfold pluginHandler. rewrite Hnone. reflexivity.
Qed.

(** *** The certificate check *)

Lemma validateFingerPrint_accepts `{PluginContract} `{Environment}
    (rest : Buffer) (self : Authentication) (i : Info) :
  isPlugin (plugin self) = true ->
  sameIgnoringCase (toHexString (expectedDigest self i))
    (bufferToString AsciiEncoding rest) ->
  validateFingerPrint (0x01 :: rest) self i = inr true.
Proof.
  intros Hplugin Hsame. unfold validateFingerPrint.
  change (negb (0x01 =? 0x01)) with false. cbv iota.
  rewrite Hplugin. cbn [negb skipn]. f_equal.
  apply String.eqb_eq. unfold sameIgnoringCase, expectedDigest in Hsame.
  rewrite toLowerCase_toHexString in Hsame. exact Hsame.
Qed.

Lemma secret_usable (v : option string) :
  negb (truthy v) || isEmptyString v = negb (truthy v).
Proof.
  destruct v as [pw|]; [|reflexivity]. cbn.
  destruct (String.eqb pw ""); reflexivity.
Qed.

(** X13: over a trusted self-signed certificate that must be validated, an
    OK_Packet concludes the handshake with success if and only if it carries
    a validation hash made of the tag 0x01 and, up to case, the hex encoding
    of the expected digest, the active plugin permits a hash and a non-empty
    password is configured. *)
Theorem self_signed_success_iff `{PluginContract} `{Environment}
    (packet : Packet.t) (opts : Opts) (s : St) :
  Packet.peek packet = Some 0x00 ->
  requireValidCert (info s) = true ->
  selfSignedCertificate (info s) = true ->
  isPlugin (plugin (this s)) = true ->
  let s2 := okState packet s in
  In SuccessEnd (newCalls s (snd (handshakeResult packet opts s)))
  <-> exists rest,
        validationHashOf packet = Some (Some (0x01 :: rest))
        /\ permitHash (plugin (this s2)) = true
        /\ truthy (password (cmdParam_opts (this s))) = true
        /\ sameIgnoringCase
             (toHexString (expectedDigest (this s2) (info s2)))
             (bufferToString AsciiEncoding rest).
Proof.
  intros Hpeek Hreq Hself Hplugin s2.
  assert (Hplugin2 : isPlugin (plugin (this s2)) = true) by exact Hplugin.
  rewrite (handshakeResult_ok_self_signed packet opts s Hpeek Hreq Hself).
  fold s2.
  assert (Hfail : forall e, ~ In SuccessEnd (newCalls s (emit (ThrowNewError e) s2))).
  { intros e. replace (newCalls s (emit (ThrowNewError e) s2))
      with [ThrowNewError e] by (symmetry; subst s2; calls).
    intros [Hin | []]. discriminate. }
  assert (Hnone : ~ In SuccessEnd (newCalls s s2)).
  { replace (newCalls s s2) with (@nil Event) by (symmetry; subst s2; calls).
    intros []. }
  split.
  - unfold checkSelfSigned, validationHashOf.
    destruct (Packet.remaining (Packet.skip 2 (snd (afterStatus packet)))).
    2:{ intros Hin. exfalso. exact (Hfail _ Hin). }
    destruct (fst (Packet.readBufferLengthEncoded _)) as [vh|].
    2:{ intros Hin. exfalso. exact (Hnone Hin). }
    destruct vh as [|tag rest].
    { intros Hin. exfalso. exact (Hfail _ Hin). }
    rewrite (nonempty_length_pos (tag :: rest)) by discriminate.
    rewrite Hplugin2. cbn [negb].
    rewrite <- orb_assoc, secret_usable.
    change (password (cmdParam_opts (this s2)))
      with (password (cmdParam_opts (this s))).
    destruct (permitHash (plugin (this s2))) eqn:Hpermit; cbn [negb orb].
    2:{ intros Hin. exfalso. exact (Hfail _ Hin). }
    destruct (truthy (password (cmdParam_opts (this s)))) eqn:Hpw; cbn [negb].
    2:{ intros Hin. exfalso. exact (Hfail _ Hin). }
    destruct (validateFingerPrint (tag :: rest) (this s2) (info s2))
      as [e | [|]] eqn:Hvalid.
    + intros Hin. exfalso. exact (Hnone Hin).
    + intros _.
      destruct (validateFingerPrint_true_inv _ _ _ Hvalid) as (rest' & Heq & Hsame).
      exists rest'. rewrite Heq. repeat split; assumption.
    + intros Hin. exfalso. exact (Hfail _ Hin).
  - intros (rest & Hhash & Hpermit & Hpw & Hsame).
    rewrite (checkSelfSigned_hash packet s2 (0x01 :: rest) Hhash)
      by (discriminate || exact Hplugin2).
    rewrite <- orb_assoc, secret_usable, Hpermit.
    change (password (cmdParam_opts (this s2)))
      with (password (cmdParam_opts (this s))).
    rewrite Hpw. cbn [negb orb].
    rewrite (validateFingerPrint_accepts rest (this s2) (info s2) Hplugin2 Hsame).
    cbn [snd].
    replace (newCalls s (emit SuccessEnd s2)) with [SuccessEnd]
      by (symmetry; subst s2; calls).
    left. reflexivity.
Qed.

(** X16: over a trusted self-signed certificate, a non-empty validation
    hash whose tag is not 0x01, with a plugin that permits a hash and a
    non-empty password, makes [handshakeResult] throw the AssertionError of
    [validateFingerPrint]: the handshake is neither concluded with success
    nor handed to a failure path, while the status is already stored and
    the plugin already detached. *)
Theorem wrong_tag_escapes_handshake `{PluginContract} `{Environment}
    (packet : Packet.t) (opts : Opts) (s : St) (tag : Z) (rest : Buffer) :
  Packet.peek packet = Some 0x00 ->
  requireValidCert (info s) = true ->
  selfSignedCertificate (info s) = true ->
  isPlugin (plugin (this s)) = true ->
  validationHashOf packet = Some (Some (tag :: rest)) ->
  tag <> 0x01 ->
  permitHash (plugin (this (okState packet s))) = true ->
  truthy (password (cmdParam_opts (this s))) = true ->
  let s' := snd (handshakeResult packet opts s) in
  fst (handshakeResult packet opts s) = Threw (AssertionError tag 0x01)
  /\ newCalls s s' = []
  /\ onPacketReceive (plugin (this s')) = None
  /\ status (info s') = fst (afterStatus packet).
Proof.
  intros Hpeek Hreq Hself Hplugin Hhash Htag Hpermit Hpw s'. subst s'.
  rewrite (handshakeResult_ok_self_signed packet opts s Hpeek Hreq Hself).
  rewrite (checkSelfSigned_hash packet _ (tag :: rest) Hhash)
    by (discriminate || exact Hplugin).
  rewrite <- orb_assoc, secret_usable, Hpermit.
  change (password (cmdParam_opts (this (okState packet s))))
    with (password (cmdParam_opts (this s))).
  rewrite Hpw. cbn [negb orb].
  unfold validateFingerPrint. apply Z.eqb_neq in Htag. rewrite Htag.
  cbn [negb fst snd]. repeat split. calls.
Qed.

(** *** Reading the request *)

Lemma untilNull_terminated (name data : Buffer) :
  noNull name ->
  Packet.untilNull (name ++ 0 :: data) = name
  /\ Packet.afterNull (name ++ 0 :: data) = data.
Proof.
  intros Hname. induction Hname as [|b r Hb Hr IH]; [split; reflexivity|].
  cbn [app Packet.untilNull Packet.afterNull].
  apply Z.eqb_neq in Hb. rewrite Hb. destruct IH as [-> ->]. split; reflexivity.
Qed.

Lemma untilNull_unterminated (name : Buffer) :
  noNull name ->
  Packet.untilNull name = name /\ Packet.afterNull name = [].
Proof.
  intros Hname. induction Hname as [|b r Hb Hr IH]; [split; reflexivity|].
  cbn [Packet.untilNull Packet.afterNull].
  apply Z.eqb_neq in Hb. rewrite Hb. destruct IH as [-> ->]. split; reflexivity.
Qed.

(** X17: with plugin-auth negotiated, an AuthSwitchRequest made of the
    header, the bytes of a name (none of them zero), a zero byte and a
    challenge is read back as that name, decoded, and exactly that
    challenge, which may be empty or hold zero bytes; when the terminator is
    missing, all bytes after the header are the name and the challenge is
    empty.  Without plugin-auth the header is read as part of the name. *)
Theorem auth_switch_request_round_trip `{Environment}
    (name data : Buffer) (i : Info) :
  noNull name ->
  (Z.land (clientCapabilities i) PLUGIN_AUTH <> 0 ->
     readAuthSwitchRequest (0xfe :: name ++ 0 :: data) i
     = (bufferToString DefaultEncoding name, data)
     /\ (name <> [] ->
         readAuthSwitchRequest (0xfe :: name) i
         = (bufferToString DefaultEncoding name, [])))
  /\ (Z.land (clientCapabilities i) PLUGIN_AUTH = 0 ->
      readAuthSwitchRequest (0xfe :: name ++ 0 :: data) i
      = (bufferToString AsciiEncoding (0xfe :: name), data)).
Proof.
  intros Hname. split.
  - intros Hcaps. apply Z.eqb_neq in Hcaps. split.
    + unfold readAuthSwitchRequest. rewrite Hcaps. cbn [negb Packet.skip skipn].
      assert (Hrem : Packet.remaining (name ++ 0 :: data) = true)
        by (destruct name; reflexivity).
      rewrite Hrem. unfold readStringNullEnded, Packet.readBytesNullEnded.
      destruct (untilNull_terminated name data Hname) as [-> ->]. reflexivity.
    + intros Hne. unfold readAuthSwitchRequest.
      rewrite Hcaps. cbn [negb Packet.skip skipn].
      assert (Hrem : Packet.remaining name = true)
        by (destruct name; [contradiction | reflexivity]).
      rewrite Hrem. unfold readStringNullEnded, Packet.readBytesNullEnded.
      destruct (untilNull_unterminated name Hname) as [-> ->]. reflexivity.
  - intros Hcaps. unfold readAuthSwitchRequest. rewrite Hcaps.
    cbn [Z.eqb negb]. unfold readStringNullEnded, Packet.readBytesNullEnded.
    cbn [Packet.untilNull Packet.afterNull].
    change (0xfe =? 0) with false. cbv iota.
    destruct (untilNull_terminated name data Hname) as [-> ->]. reflexivity.
Qed.

(** *** The plugin slot over a whole handshake *)

Lemma Object_constructor_name (name : string) :
  assoc Object_prototype name = Some ObjectConstructor ->
  name = "constructor"%string.
Proof.
  unfold Object_prototype. cbn [assoc].
  destruct (String.eqb "constructor" name) eqn:E.
  { intros _. apply String.eqb_eq in E. symmetry. exact E. }
  repeat match goal with
         | |- context [String.eqb ?a ?b] => destruct (String.eqb a b)
         end;
    intros Hv; discriminate.
Qed.

Lemma slot_stays_plugin_step `{PluginContract} `{Environment}
    (packet : Packet.t) (opts : Opts) (s : St) :
  isPlugin (plugin (this s)) = true ->
  (Packet.peek packet = Some 0xfe ->
   requestedName packet s <> "constructor"%string) ->
  isPlugin (plugin (this (snd (handshakeResult packet opts s)))) = true.
Proof.
  intros Hold Hname. react R packet opts s; try assumption; try congruence.
  - exfalso. apply Hname; [assumption|].
    apply Object_constructor_name. assumption.
  - cbn [emit setPlugin this plugin]. eapply isPlugin_built. eassumption.
  - cbn [emit setPlugin this plugin]. eapply isPlugin_built. eassumption.
Qed.

(** X18: over any sequence of packets, the plugin slot keeps holding a
    plugin (an object with the plugin methods), as long as it holds one at
    first and no AuthSwitchRequest names the mechanism "constructor", the
    one name for which [new pluginAuth(...)] succeeds on something that is
    no plugin. *)
Theorem slot_stays_plugin `{PluginContract} `{Environment}
    (packets : list Packet.t) (opts : Opts) (s : St) :
  isPlugin (plugin (this s)) = true ->
  Forall (fun packet =>
            Packet.peek packet = Some 0xfe ->
            forall i, fst (readAuthSwitchRequest packet i) <> "constructor"%string)
         packets ->
  isPlugin (plugin (this (handshake packets opts s))) = true.
Proof.
  intros Hold Hpackets. revert s Hold.
  induction Hpackets as [|packet later Hpacket Hlater IH]; intros s Hold.
  - exact Hold.
  - cbn [handshake]. apply IH. apply slot_stays_plugin_step; [exact Hold|].
    intros Hpeek. apply (Hpacket Hpeek).
Qed.

(** ** The further properties at concrete inputs *)

Lemma unexpected_packet_rejected_witness :
  let s := initialState sampleOpts (sampleInfo PLUGIN_AUTH false false) in
  (forall m, Packet.peek [0x0a; 0x35] = Some m ->
             m <> 0xfe /\ m <> 0x00 /\ m <> 0xff)
  /\ newCalls s (snd (handshakeResult [0x0a; 0x35] sampleOpts s))
     = [ThrowNewError
          (mkSqlError "Unexpected type of packet during handshake phase : 10"
             true "42000" ER_AUTHENTICATION_BAD_PACKET)].
Proof.
  cbv zeta.
  assert (Hmarker : forall m, Packet.peek [0x0a; 0x35] = Some m ->
                              m <> 0xfe /\ m <> 0x00 /\ m <> 0xff).
  { intros m Hm. injection Hm as <-. repeat split; discriminate. }
  split; [exact Hmarker|].
  exact (proj2 (proj2 (proj2
    (@unexpected_packet_rejected samplePlugins sampleEnvironment
       [0x0a; 0x35] sampleOpts
       (initialState sampleOpts (sampleInfo PLUGIN_AUTH false false))
       Hmarker)))).
Defined.

Lemma auth_switch_starts_plugin_witness :
  let packet := authSwitchPacket "client_ed25519" [7; 8; 9] in
  let s := initialState sampleOpts (sampleInfo PLUGIN_AUTH false false) in
  let new := mkPlugin Ed25519PasswordAuth 0 0 [7; 8; 9] (Some ClassMethod) in
  isPlugin (plugin (this s)) = true
  /\ permitted sampleOpts (requestedName packet s) = true
  /\ assoc registry (requestedName packet s) = Some Ed25519PasswordAuth
  /\ start new = None
  /\ plugin (this (snd (handshakeResult packet sampleOpts s))) = new.
Proof.
  cbv zeta. repeat (split; [reflexivity|]).
  exact (proj1 (proj2
    (@auth_switch_starts_plugin samplePlugins sampleEnvironment
       (tl (authSwitchPacket "client_ed25519" [7; 8; 9])) sampleOpts
       (initialState sampleOpts (sampleInfo PLUGIN_AUTH false false))
       Ed25519PasswordAuth eq_refl eq_refl eq_refl eq_refl))).
Defined.

Lemma auth_switch_start_throws_witness :
  let packet := authSwitchPacket "dialog" [] in
  let s := initialState sampleOpts (sampleInfo PLUGIN_AUTH false false) in
  let new := mkPlugin PamPasswordAuth 0 0 [] (Some ClassMethod) in
  isPlugin (plugin (this s)) = true
  /\ permitted sampleOpts (requestedName packet s) = true
  /\ assoc registry (requestedName packet s) = Some PamPasswordAuth
  /\ @start refusingPlugins new = Some (TypeError "start failed")
  /\ newCalls s
       (snd (@handshakeResult refusingPlugins sampleEnvironment packet
               sampleOpts s))
     = [PluginEnd initialPlugin; PluginStart new;
        Reject (TypeError "start failed")].
Proof.
  cbv zeta. repeat (split; [reflexivity|]).
  exact (proj2 (proj2
    (@auth_switch_start_throws refusingPlugins sampleEnvironment
       (tl (authSwitchPacket "dialog" [])) sampleOpts
       (initialState sampleOpts (sampleInfo PLUGIN_AUTH false false))
       PamPasswordAuth (TypeError "start failed")
       eq_refl eq_refl eq_refl eq_refl))).
Defined.

Lemma dispatch_undefined_property_witness :
  let packet := authSwitchPacket "mysql_old_password" [1; 2] in
  let opts := mkOpts (Some ["mysql_old_password"%string]) None in
  let s := initialState opts (sampleInfo PLUGIN_AUTH false false) in
  isPlugin (plugin (this s)) = true
  /\ includes ["mysql_old_password"%string]
       (fst (readAuthSwitchRequest packet (info s))) = true
  /\ authenticationPlugins (fst (readAuthSwitchRequest packet (info s))) = None
  /\ newCalls s (snd (handshakeResult packet opts s))
     = [PluginEnd initialPlugin;
        Reject (SqlErr (unsupportedError "mysql_old_password"))].
Proof.
  cbv zeta. repeat (split; [reflexivity|]).
  exact (proj2
    (@dispatch_undefined_property samplePlugins sampleEnvironment
       (tl (authSwitchPacket "mysql_old_password" [1; 2]))
       (mkOpts (Some ["mysql_old_password"%string]) None)
       (initialState (mkOpts (Some ["mysql_old_password"%string]) None)
          (sampleInfo PLUGIN_AUTH false false))
       eq_refl eq_refl eq_refl)).
Defined.

Lemma legacy_switch_never_builds_witness :
  let s := initialState sampleOpts (sampleInfo PLUGIN_AUTH false false) in
  Z.land (clientCapabilities (info s)) PLUGIN_AUTH <> 0
  /\ isPlugin (plugin (this s)) = true
  /\ cls (plugin (this (snd (handshakeResult [0xfe] sampleOpts s)))) = Handshake.
Proof.
  cbv zeta.
  assert (Hcaps : Z.land (clientCapabilities (sampleInfo PLUGIN_AUTH false false))
                    PLUGIN_AUTH <> 0) by discriminate.
  split; [exact Hcaps | split; [reflexivity|]].
  exact (proj1
    (@legacy_switch_never_builds samplePlugins sampleEnvironment sampleOpts
       (initialState sampleOpts (sampleInfo PLUGIN_AUTH false false))
       Hcaps eq_refl)).
Defined.

Lemma empty_allow_list_permits_nothing_witness :
  let opts := mkOpts (Some []) (Some "secret"%string) in
  let packet := authSwitchPacket "mysql_native_password" [] in
  let s := initialState opts (sampleInfo PLUGIN_AUTH false false) in
  restrictedAuth opts = Some []
  /\ newCalls s (snd (handshakeResult packet opts s))
     = [ThrowNewError
          (mkSqlError
             "Unsupported authentication plugin mysql_native_password. Authorized plugin: "
             true "42000" ER_NOT_SUPPORTED_AUTH_PLUGIN)].
Proof.
  cbv zeta. split; [reflexivity|].
  exact (proj2 (proj2
    (@empty_allow_list_permits_nothing samplePlugins sampleEnvironment
       (tl (authSwitchPacket "mysql_native_password" []))
       (mkOpts (Some []) (Some "secret"%string))
       (initialState (mkOpts (Some []) (Some "secret"%string))
          (sampleInfo PLUGIN_AUTH false false))
       eq_refl))).
Defined.

Lemma started_plugin_is_permitted_witness :
  let packet := authSwitchPacket "mysql_clear_password" [1; 2; 3] in
  let s := initialState sampleOpts (sampleInfo PLUGIN_AUTH false false) in
  let p := mkPlugin ClearPasswordAuth 0 0 [1; 2; 3] (Some ClassMethod) in
  In (PluginStart p) (newCalls s (snd (handshakeResult packet sampleOpts s)))
  /\ assoc registry (requestedName packet s) = Some (cls p).
Proof.
  cbv zeta.
  assert (Hin : In (PluginStart (mkPlugin ClearPasswordAuth 0 0 [1; 2; 3]
                                   (Some ClassMethod)))
                  (newCalls
                     (initialState sampleOpts (sampleInfo PLUGIN_AUTH false false))
                     (snd (handshakeResult
                             (authSwitchPacket "mysql_clear_password" [1; 2; 3])
                             sampleOpts
                             (initialState sampleOpts
                                (sampleInfo PLUGIN_AUTH false false)))))).
  { right. left. reflexivity. }
  split; [exact Hin|].
  exact (proj1 (proj2 (proj2
    (@started_plugin_is_permitted samplePlugins sampleEnvironment
       (authSwitchPacket "mysql_clear_password" [1; 2; 3]) sampleOpts
       (initialState sampleOpts (sampleInfo PLUGIN_AUTH false false))
       (mkPlugin ClearPasswordAuth 0 0 [1; 2; 3] (Some ClassMethod)) Hin)))).
Defined.

Lemma packets_go_to_new_plugin_witness :
  let packet := authSwitchPacket "sha256_password" [4; 5] in
  let s := initialState sampleOpts (sampleInfo PLUGIN_AUTH false false) in
  let new := mkPlugin Sha256PasswordAuth 0 0 [4; 5] (Some ClassMethod) in
  let receiver := mkPlugin Sha256PasswordAuth 1 0 [4; 5] (Some ClassMethod) in
  isPlugin (plugin (this s)) = true
  /\ permitted sampleOpts (requestedName packet s) = true
  /\ assoc registry (requestedName packet s) = Some Sha256PasswordAuth
  /\ start new = None
  /\ newCalls s
       (snd (Authentication_onPacketReceive [0x01; 0x02]
               (snd (handshakeResult packet sampleOpts s))))
     = [PluginEnd initialPlugin; PluginStart new;
        PluginOnPacket receiver [0x01; 0x02]].
Proof.
  cbv zeta. repeat (split; [reflexivity|]).
  exact (proj2 (proj2
    (@packets_go_to_new_plugin samplePlugins sampleEnvironment
       (tl (authSwitchPacket "sha256_password" [4; 5])) [0x01; 0x02] sampleOpts
       (initialState sampleOpts (sampleInfo PLUGIN_AUTH false false))
       Sha256PasswordAuth eq_refl eq_refl eq_refl eq_refl))).
Defined.

Lemma at_most_one_conclusion_witness :
  let s := initialState sampleOpts (sampleInfo PLUGIN_AUTH false false) in
  In SuccessEnd (newCalls s (snd (handshakeResult (okPacket []) sampleOpts s)))
  /\ newCalls s (snd (handshakeResult (okPacket []) sampleOpts s)) = [SuccessEnd].
Proof.
  cbv zeta.
  assert (Hin : In SuccessEnd
                  (newCalls
                     (initialState sampleOpts (sampleInfo PLUGIN_AUTH false false))
                     (snd (handshakeResult (okPacket []) sampleOpts
                             (initialState sampleOpts
                                (sampleInfo PLUGIN_AUTH false false)))))).
  { left. reflexivity. }
  split; [exact Hin|].
  exact (proj1 (proj2 (proj2
    (@at_most_one_conclusion samplePlugins sampleEnvironment (okPacket [])
       sampleOpts
       (initialState sampleOpts (sampleInfo PLUGIN_AUTH false false))) Hin))).
Defined.

Lemma terminal_packets_detach_witness :
  let packet := okPacket (65 :: sampleValidationHash 0x02) in
  let s := initialState sampleOpts (sampleInfo PLUGIN_AUTH true true) in
  (Packet.peek packet = Some 0x00 \/ Packet.peek packet = Some 0xff)
  /\ plugin (this (snd (handshakeResult packet sampleOpts s)))
     = mkPlugin Handshake 0 0 [] None.
Proof.
  cbv zeta.
  assert (Hpeek : Packet.peek (okPacket (65 :: sampleValidationHash 0x02))
                  = Some 0x00
                  \/ Packet.peek (okPacket (65 :: sampleValidationHash 0x02))
                     = Some 0xff) by (left; reflexivity).
  split; [exact Hpeek|].
  exact (proj1
    (@terminal_packets_detach samplePlugins sampleEnvironment
       (okPacket (65 :: sampleValidationHash 0x02)) sampleOpts
       (initialState sampleOpts (sampleInfo PLUGIN_AUTH true true)) Hpeek)).
Defined.

Lemma self_signed_success_iff_witness :
  let packet := okPacket (65 :: sampleValidationHash 0x01) in
  let s := initialState sampleOpts (sampleInfo PLUGIN_AUTH true true) in
  Packet.peek packet = Some 0x00
  /\ requireValidCert (info s) = true
  /\ selfSignedCertificate (info s) = true
  /\ isPlugin (plugin (this s)) = true
  /\ (In SuccessEnd (newCalls s (snd (handshakeResult packet sampleOpts s)))
      <-> exists rest,
            validationHashOf packet = Some (Some (0x01 :: rest))
            /\ permitHash (plugin (this (okState packet s))) = true
            /\ truthy (password (cmdParam_opts (this s))) = true
            /\ sameIgnoringCase
                 (toHexString
                    (expectedDigest (this (okState packet s))
                       (info (okState packet s))))
                 (bufferToString AsciiEncoding rest)).
Proof.
  cbv zeta. repeat (split; [reflexivity|]).
  exact (@self_signed_success_iff samplePlugins sampleEnvironment
           (okPacket (65 :: sampleValidationHash 0x01)) sampleOpts
           (initialState sampleOpts (sampleInfo PLUGIN_AUTH true true))
           eq_refl eq_refl eq_refl eq_refl).
Defined.

Lemma pluginHandler_registry_witness :
  assoc registry "caching_sha2_password" = Some CachingSha2PasswordAuth
  /\ pluginHandler "caching_sha2_password" 3 1 [9]
     = inr (mkPlugin CachingSha2PasswordAuth 3 1 [9] (Some ClassMethod)).
Proof.
  split; [reflexivity|].
  exact (proj1 (proj2 (proj1 (pluginHandler_registry "caching_sha2_password" 3 1 [9])
                         (mkPlugin CachingSha2PasswordAuth 3 1 [9] (Some ClassMethod)))
                  (ex_intro _ CachingSha2PasswordAuth (conj eq_refl eq_refl)))).
Defined.

Lemma switch_uses_command_counters_witness :
  let packet := authSwitchPacket "mysql_native_password" [6] in
  let s := mkSt (mkAuthentication initialPlugin 3 1 sampleOpts)
             (sampleInfo PLUGIN_AUTH false false) [] in
  isPlugin (plugin (this s)) = true
  /\ permitted sampleOpts (requestedName packet s) = true
  /\ assoc registry (requestedName packet s) = Some NativePasswordAuth
  /\ sequenceNo
       (plugin (this (snd (handshakeResult packet sampleOpts
                             (snd (Authentication_onPacketReceive [0x0a] s))))))
     = 3.
Proof.
  cbv zeta. repeat (split; [reflexivity|]).
  exact (proj1 (proj2
    (@switch_uses_command_counters samplePlugins sampleEnvironment [0x0a]
       (tl (authSwitchPacket "mysql_native_password" [6])) sampleOpts
       (mkSt (mkAuthentication initialPlugin 3 1 sampleOpts)
          (sampleInfo PLUGIN_AUTH false false) [])
       NativePasswordAuth eq_refl eq_refl eq_refl))).
Defined.

Lemma wrong_tag_escapes_handshake_witness :
  let packet := okPacket (65 :: sampleValidationHash 0x02) in
  let s := initialState sampleOpts (sampleInfo PLUGIN_AUTH true true) in
  Packet.peek packet = Some 0x00
  /\ requireValidCert (info s) = true
  /\ selfSignedCertificate (info s) = true
  /\ isPlugin (plugin (this s)) = true
  /\ validationHashOf packet = Some (Some (sampleValidationHash 0x02))
  /\ 0x02 <> 0x01
  /\ permitHash (plugin (this (okState packet s))) = true
  /\ truthy (password (cmdParam_opts (this s))) = true
  /\ fst (handshakeResult packet sampleOpts s) = Threw (AssertionError 0x02 0x01).
Proof.
  cbv zeta.
  assert (Htag : 0x02 <> 0x01) by discriminate.
  repeat (split; [first [reflexivity | exact Htag]|]).
  exact (proj1
    (@wrong_tag_escapes_handshake samplePlugins sampleEnvironment
       (okPacket (65 :: sampleValidationHash 0x02)) sampleOpts
       (initialState sampleOpts (sampleInfo PLUGIN_AUTH true true))
       0x02 (tl (sampleValidationHash 0x02))
       eq_refl eq_refl eq_refl eq_refl eq_refl Htag eq_refl eq_refl)).
Defined.

Lemma auth_switch_request_round_trip_witness :
  let i := sampleInfo PLUGIN_AUTH false false in
  noNull (bytesOf "dialog")
  /\ Z.land (clientCapabilities i) PLUGIN_AUTH <> 0
  /\ readAuthSwitchRequest (0xfe :: bytesOf "dialog" ++ 0 :: [0; 7; 0]) i
     = ("dialog"%string, [0; 7; 0]).
Proof.
  cbv zeta.
  assert (Hname : noNull (bytesOf "dialog"))
    by (repeat (constructor; [discriminate|]); constructor).
  assert (Hcaps : Z.land (clientCapabilities (sampleInfo PLUGIN_AUTH false false))
                    PLUGIN_AUTH <> 0) by discriminate.
  split; [exact Hname | split; [exact Hcaps|]].
  exact (proj1 (proj1
    (@auth_switch_request_round_trip sampleEnvironment (bytesOf "dialog")
       [0; 7; 0] (sampleInfo PLUGIN_AUTH false false) Hname) Hcaps)).
Defined.

Lemma slot_stays_plugin_witness :
  let s := initialState sampleOpts (sampleInfo PLUGIN_AUTH false false) in
  let packets := [authSwitchPacket "dialog" [1]; errPacket] in
  isPlugin (plugin (this s)) = true
  /\ Forall (fun packet =>
               Packet.peek packet = Some 0xfe ->
               forall i, fst (readAuthSwitchRequest packet i)
                         <> "constructor"%string)
       packets
  /\ isPlugin (plugin (this (handshake packets sampleOpts s))) = true.
Proof.
  cbv zeta.
  assert (Hpackets :
            Forall (fun packet =>
                      Packet.peek packet = Some 0xfe ->
                      forall i, fst (readAuthSwitchRequest packet i)
                                <> "constructor"%string)
              [authSwitchPacket "dialog" [1]; errPacket]).
  { constructor.
    - intros _ i. unfold readAuthSwitchRequest.
      destruct (negb (Z.land (clientCapabilities i) PLUGIN_AUTH =? 0));
        discriminate.
    - constructor; [intros Hpeek; discriminate | constructor]. }
  split; [reflexivity | split; [exact Hpackets|]].
  exact (@slot_stays_plugin samplePlugins sampleEnvironment
           [authSwitchPacket "dialog" [1]; errPacket] sampleOpts
           (initialState sampleOpts (sampleInfo PLUGIN_AUTH false false))
           eq_refl Hpackets).
Defined.
